(** * GoldenHour triage console: queue view-model, alerts, pollers and
      the submission orchestrator of [src/App.jsx]

    A shallow embedding of the stateful core of [App.jsx].  React state
    hooks become record fields, event handlers become functions on those
    records, [async] handlers run in a small state-and-exception monad, and
    JavaScript arrays are lists.  Numbers that the code only compares and
    subtracts ([risk_score], timer intervals) are integers. *)

From stdpp Require Import gmap strings list sorting pretty.
From Stdlib Require Import Ascii ZArith QArith Lia.

Local Open Scope string_scope.
Local Open Scope list_scope.
Local Open Scope Z_scope.

(** ** Data model *)

(** One entry of [queueData.patients], with the fields the view-model
    reads.  The queue endpoint names the category field [triage]. *)
Record Patient := {
  patient_id : string;
  triage : string;
  risk_score : Z;
  status : string;
  predicted_next_move : string;
  priority : string;
}.

(** The payload of [GET /queue]; a missing [patients] array reads as the
    empty list in every use ([queueData?.patients || []]). *)
Record QueueData := {
  patients : list Patient;
  queue_last_updated : string;
}.

(** ** Derived views *)

Module Derived.

(** [Array.prototype.sort(cmp)]: the specification requires a stable sort,
    so for a consistent comparator the result is determined; it is modelled
    by insertion from the right.  [cmp x y > 0] sorts [x] after [y]. *)
Fixpoint insert {A} (cmp : A → A → Z) (x : A) (l : list A) : list A :=
  match l with
  | [] => [x]
  | y :: l' => if 0 <? cmp x y then y :: insert cmp x l' else x :: l
  end.

Fixpoint Array_sort {A} (cmp : A → A → Z) (l : list A) : list A :=
  match l with
  | [] => []
  | x :: l' => insert cmp x (Array_sort cmp l')
  end.

(** [(a, b) => b.risk_score - a.risk_score] *)
Definition byRiskDesc (a b : Patient) : Z := risk_score b - risk_score a.

(** [patients.slice().sort((a, b) => b.risk_score - a.risk_score)]
    (QueuePage, TopPatientsCard). *)
Definition sortedByRisk (ps : list Patient) : list Patient :=
  Array_sort byRiskDesc ps.

(** QueuePage: [queueData?.patients?.slice().sort(...) || []] *)
Definition sorted (queueData : option QueueData) : list Patient :=
  match queueData with
  | Some d => sortedByRisk (patients d)
  | None => []
  end.

(** TopPatientsCard: [[...(patients || [])].sort(...).slice(0, 3)] *)
Definition top3 (ps : list Patient) : list Patient := take 3 (sortedByRisk ps).

(** [list.filter(p => p.triage === cat).length] *)
Definition countCategory (cat : string) (ps : list Patient) : nat :=
  length (filter (λ p, triage p = cat) ps).

Definition CATEGORIES : list string := ["RED"; "ORANGE"; "YELLOW"; "GREEN"].

(** QueuePage: [["RED","ORANGE","YELLOW","GREEN"].map(cat => ({ name: cat,
    count: sorted.filter(p => p.triage === cat).length }))] *)
Definition categoryStats (sorted : list Patient) : list (string * nat) :=
  (λ cat, (cat, countCategory cat sorted)) <$> CATEGORIES.

(** DashboardPage: the four tallies [red], [orange], [yellow], [green]. *)
Definition red (pts : list Patient) : nat := countCategory "RED" pts.
Definition orange (pts : list Patient) : nat := countCategory "ORANGE" pts.
Definition yellow (pts : list Patient) : nat := countCategory "YELLOW" pts.
Definition green (pts : list Patient) : nat := countCategory "GREEN" pts.

(** Descending by risk: an earlier patient has at least the risk of a
    later one. *)
Definition riskGe (a b : Patient) : Prop := risk_score b ≤ risk_score a.

(** The data-model invariant on categories. *)
Definition validCategory (p : Patient) : Prop := triage p ∈ CATEGORIES.

End Derived.

(** ** Alert lifecycle: [CriticalNotifications] *)

Module Alerts.

(** The component's hooks: [dismissed] (a JavaScript [Set] of patient ids)
    and [expanded]; [shown] is the [patients] prop of the latest render. *)
Record State := {
  dismissed : gset string;
  expanded : bool;
  shown : list Patient;
}.

(** [useState(new Set())], [useState(true)], before the first snapshot. *)
Definition mount : State :=
  {| dismissed := ∅; expanded := true; shown := [] |}.

(** [p.triage === "RED" || p.triage === "ORANGE" || p.risk_score >= 60] *)
Definition isCritical (p : Patient) : bool :=
  bool_decide (triage p = "RED") || bool_decide (triage p = "ORANGE")
  || (60 <=? risk_score p).

(** The first filter of [critical]: the critical subset of a snapshot. *)
Definition criticalSubset (ps : list Patient) : list Patient :=
  filter (λ p, isCritical p = true) ps.

(** [const critical = (patients || []).filter(...)
      .filter(p => !dismissed.has(p.patient_id))] *)
Definition critical (d : gset string) (ps : list Patient) : list Patient :=
  filter (λ p, patient_id p ∉ d) (criticalSubset ps).

(** The alert rows drawn: nothing when [critical] is empty or the panel is
    collapsed, otherwise [critical.slice(0, 5)]. *)
Definition rendered (s : State) : list Patient :=
  if expanded s then take 5 (critical (dismissed s) (shown s)) else [].

(** The badge [critical.length] in the panel header. *)
Definition badge (s : State) : nat := length (critical (dismissed s) (shown s)).

(** [setDismissed(d => new Set([...d, p.patient_id]))] *)
Definition dismiss (id : string) (d : gset string) : gset string :=
  d ∪ {[ id ]}.

(** What can happen to a mounted component: the dashboard re-renders it
    with the patients of a new snapshot, the user presses Dismiss on a row,
    or toggles the panel header. *)
Inductive Event :=
| Snapshot (ps : list Patient)
| Dismiss (id : string)
| Toggle.

(** The Dismiss button exists only on a drawn row; a press elsewhere cannot
    happen and leaves the state as it is. *)
Definition step (s : State) (e : Event) : State :=
  match e with
  | Snapshot ps =>
      {| dismissed := dismissed s; expanded := expanded s; shown := ps |}
  | Dismiss id =>
      if bool_decide (id ∈ patient_id <$> rendered s)
      then {| dismissed := dismiss id (dismissed s);
              expanded := expanded s; shown := shown s |}
      else s
  | Toggle =>
      {| dismissed := dismissed s; expanded := negb (expanded s);
         shown := shown s |}
  end.

Definition run (s : State) (es : list Event) : State := foldl step s es.

(** The id has an alert row on screen. *)
Definition alertRendered (id : string) (s : State) : Prop :=
  id ∈ patient_id <$> rendered s.

(** The id is in the critical subset of the snapshot on screen. *)
Definition inCriticalSubset (id : string) (ps : list Patient) : Prop :=
  id ∈ patient_id <$> criticalSubset ps.

(** Every snapshot delivered by the events keeps the id critical. *)
Definition staysCritical (id : string) (es : list Event) : Prop :=
  ∀ ps, Snapshot ps ∈ es → inCriticalSubset id ps.

End Alerts.

(** ** Asynchronous handlers *)

Module Async.

(** A settled promise: fulfilled with a value, or rejected with an [Error]
    whose [message] is kept. *)
Inductive Outcome (A : Type) :=
| Fulfilled (a : A)
| Rejected (message : string).
Arguments Fulfilled {A} a.
Arguments Rejected {A} message.

(** An [async] function body over component state [σ]: it either completes
    with a value or throws an [Error] message, and leaves a state behind. *)
Definition M (σ A : Type) : Type := σ → (string + A) * σ.

Definition ret {σ A} (a : A) : M σ A := λ s, (inr a, s).

Definition bind {σ A B} (m : M σ A) (f : A → M σ B) : M σ B :=
  λ s, match m s with
       | (inl e, s') => (inl e, s')
       | (inr a, s') => f a s'
       end.

(** [throw new Error(message)] *)
Definition throw {σ A} (message : string) : M σ A := λ s, (inl message, s).

(** [try { body } catch (err) { handler(err.message) }] *)
Definition tryCatch {σ A} (body : M σ A) (handler : string → M σ A) : M σ A :=
  λ s, match body s with
       | (inl e, s') => handler e s'
       | (inr a, s') => (inr a, s')
       end.

(** A state setter. *)
Definition modify {σ} (f : σ → σ) : M σ unit := λ s, (inr tt, f s).

Definition get {σ} : M σ σ := λ s, (inr s, s).

(** [await promise] *)
Definition await {σ A} (o : Outcome A) : M σ A :=
  match o with
  | Fulfilled a => ret a
  | Rejected e => throw e
  end.

(** [promise.catch(() => null)] *)
Definition catchNull {A} (o : Outcome A) : Outcome (option A) :=
  match o with
  | Fulfilled a => Fulfilled (Some a)
  | Rejected _ => Fulfilled None
  end.

(** [promise.then(f).catch(() => {})] on component state: a fire-and-forget
    chain, which cannot reject. *)
Definition thenCatch {σ A} (o : Outcome A) (f : A → σ → σ) : σ → σ :=
  λ s, match o with
       | Fulfilled a => f a s
       | Rejected _ => s
       end.

(** The handler ran to completion without throwing into its caller. *)
Definition completes {σ A} (m : M σ A) (s : σ) : Prop :=
  ∃ a, (m s).1 = inr a.

End Async.

(** The handlers below are written with stdpp's monad notation:
    [x ← m; k] awaits or runs [m] and continues with [k]. *)
#[global] Instance M_ret {σ} : MRet (Async.M σ) := λ A, @Async.ret σ A.
#[global] Instance M_bind {σ} : MBind (Async.M σ) :=
  λ A B f m, @Async.bind σ A B m f.

(** ** Remote gateway: error normalisation of [request] *)

Module Gateway.

(** The [detail] field of a non-2xx body: a string, an array of objects
    whose [msg] may be missing, or anything else (absent, unparsable). *)
Inductive Detail :=
| DetailString (s : string)
| DetailList (msgs : list string)
| DetailOther.

(** [array.filter(Boolean)] on strings: the empty string is falsy. *)
Definition truthy (s : string) : Prop := s ≠ EmptyString.

(** [a || b] on strings. *)
Definition orElse (a b : string) : string :=
  if decide (a = EmptyString) then b else a.

(** [array.join(", ")] *)
Fixpoint join (sep : string) (l : list string) : string :=
  match l with
  | [] => EmptyString
  | [x] => x
  | x :: l' => x +:+ sep +:+ join sep l'
  end.

(** [typeof payload?.detail === "string" ? payload.detail
     : Array.isArray(payload?.detail)
       ? payload.detail.map((d) => d?.msg).filter(Boolean).join(", ")
       : null] *)
Definition detailText (d : Detail) : string :=
  match d with
  | DetailString s => s
  | DetailList msgs => join ", " (filter truthy msgs)
  | DetailOther => EmptyString
  end.

(** [new Error(detail || `API ${response.status}`)] *)
Definition errorMessage (d : Detail) (status : N) : string :=
  orElse (detailText d) ("API " +:+ pretty status).

End Gateway.

(** ** Snapshot pollers *)

Module QueuePage.

(** The hooks of [QueuePage]. *)
Record State := {
  queueData : option QueueData;
  loading : bool;
  selected : option string;
  expandedRow : option string;
  historyPatient : option string;
}.

(** [useState(null)], [useState(true)], ... *)
Definition mount : State :=
  {| queueData := None; loading := true; selected := None;
     expandedRow := None; historyPatient := None |}.

Definition setQueueData (d : QueueData) (s : State) : State :=
  {| queueData := Some d; loading := loading s; selected := selected s;
     expandedRow := expandedRow s; historyPatient := historyPatient s |}.

Definition setLoading (b : bool) (s : State) : State :=
  {| queueData := queueData s; loading := b; selected := selected s;
     expandedRow := expandedRow s; historyPatient := historyPatient s |}.

(** [async () => { try { const d = await api.queue(); setQueueData(d); }
      catch {} setLoading(false); }], given how [api.queue()] settles. *)
Definition fetch_ (response : Async.Outcome QueueData) : Async.M State unit :=
  Async.tryCatch
    (d ← Async.await response; Async.modify (setQueueData d))
    (λ _, mret tt);;
  Async.modify (setLoading false).

(** The state a fetch leaves behind. *)
Definition afterFetch (response : Async.Outcome QueueData) (s : State) : State :=
  (fetch_ response s).2.

End QueuePage.

Module DashboardPage.

(** The hooks of [DashboardPage]. *)
Record State := {
  queueData : option QueueData;
  explainId : option string;
}.

Definition mount : State := {| queueData := None; explainId := None |}.

Definition setQueueData (d : QueueData) (s : State) : State :=
  {| queueData := Some d; explainId := explainId s |}.

(** [api.queue().then(setQueueData).catch(() => {})] *)
Definition poll (response : Async.Outcome QueueData) : State → State :=
  Async.thenCatch response setQueueData.

(** [const pts = queueData?.patients || []] *)
Definition pts (s : State) : list Patient :=
  match queueData s with
  | Some d => patients d
  | None => []
  end.

End DashboardPage.

Module Poller.

(** [fetch_(); const iv = setInterval(fetch_, interval)]: one fetch is
    started when the screen mounts and one more each time the interval
    elapses.  Time is in milliseconds since the mount; the [k]-th fetch takes
    [latency k] to settle. *)
Record Fetch := {
  fetch_no : nat;
  settles_at : Z;
}.

Record State := {
  inFlight : list Fetch;
  started : nat;
}.

Definition QUEUE_INTERVAL : Z := 10000.
Definition DASHBOARD_INTERVAL : Z := 15000.
Definition ANALYTICS_INTERVAL : Z := 30000.

(** Calling the fetch function: the request goes out at once, whatever is
    still pending. *)
Definition startFetch (now : Z) (latency : nat → Z) (s : State) : State :=
  {| inFlight := inFlight s ++
       [{| fetch_no := started s; settles_at := now + latency (started s) |}];
     started := S (started s) |}.

(** Promise reactions that became due up to [now] have run. *)
Definition settleDue (now : Z) (s : State) : State :=
  {| inFlight := filter (λ f, now < settles_at f) (inFlight s);
     started := started s |}.

(** The effect body at mount: the immediate call. *)
Definition onMount (latency : nat → Z) : State :=
  startFetch 0 latency {| inFlight := []; started := 0 |}.

(** The interval callback at time [now]. *)
Definition onInterval (now : Z) (latency : nat → Z) (s : State) : State :=
  startFetch now latency (settleDue now s).

(** The poller right after its [n]-th interval callback. *)
Fixpoint afterTicks (interval : Z) (latency : nat → Z) (n : nat) : State :=
  match n with
  | O => onMount latency
  | S k => onInterval (Z.of_nat (S k) * interval) latency
             (afterTicks interval latency k)
  end.

(** The poller at time [t ≥ 0]: the last callback ran at
    [(t / interval) * interval]. *)
Definition atTime (interval : Z) (latency : nat → Z) (t : Z) : State :=
  settleDue t (afterTicks interval latency (Z.to_nat (t / interval))).

(** Number of fetches of the poller pending at time [t]. *)
Definition pendingAt (interval : Z) (latency : nat → Z) (t : Z) : nat :=
  length (inFlight (atTime interval latency t)).

End Poller.

(** ** Strings and insertion-ordered maps *)

Module Js.

(** Strings are sequences of 8-bit characters read as code points
    U+0000..U+00FF.  In that range the white space stripped by [trim] is
    TAB, LF, VT, FF, CR, SPACE and NO-BREAK SPACE. *)
Definition isWhiteSpace (c : ascii) : bool :=
  let n := N_of_ascii c in
  ((9 <=? n) && (n <=? 13) || (n =? 32) || (n =? 160))%N.

(** [toLowerCase] on one code point: A..Z and the Latin-1 capitals
    U+00C0..U+00DE (except the multiplication sign U+00D7) move up by 32. *)
Definition lowerChar (c : ascii) : ascii :=
  let n := N_of_ascii c in
  if ((65 <=? n) && (n <=? 90)
      || (192 <=? n) && (n <=? 222) && negb (n =? 215))%N
  then ascii_of_N (n + 32) else c.

Fixpoint toLowerCase (s : string) : string :=
  match s with
  | EmptyString => EmptyString
  | String c s' => String (lowerChar c) (toLowerCase s')
  end.

Fixpoint trimStart (s : string) : string :=
  match s with
  | EmptyString => EmptyString
  | String c s' => if isWhiteSpace c then trimStart s' else s
  end.

Fixpoint trimEnd (s : string) : string :=
  match s with
  | EmptyString => EmptyString
  | String c s' =>
      match trimEnd s' with
      | EmptyString =>
          if isWhiteSpace c then EmptyString else String c EmptyString
      | t => String c t
      end
  end.

(** [s.trim()] *)
Definition trim (s : string) : string := trimEnd (trimStart s).

(** [s.split(sep)] for a one-character separator; the result is never
    empty: the empty string splits into one empty piece. *)
Fixpoint split (sep : ascii) (s : string) : list string :=
  match s with
  | EmptyString => [EmptyString]
  | String c s' =>
      if decide (c = sep) then EmptyString :: split sep s'
      else match split sep s' with
           | [] => [String c EmptyString]
           | w :: ws => String c w :: ws
           end
  end.

(** [array.filter(Boolean)] on strings. *)
Definition filterBoolean (l : list string) : list string :=
  filter (λ s, s ≠ EmptyString) l.

(** A [Map]: entries in insertion order, keys unique. *)
Section Map.
Context {K V : Type} `{EqDecision K}.

(** [map.set(k, v)]: an existing key keeps its place and takes the new
    value; a new key is appended. *)
Fixpoint set (k : K) (v : V) (m : list (K * V)) : list (K * V) :=
  match m with
  | [] => [(k, v)]
  | (k', v') :: m' =>
      if decide (k = k') then (k', v) :: m' else (k', v') :: set k v m'
  end.

(** [new Map(entries)] *)
Definition newMap (entries : list (K * V)) : list (K * V) :=
  foldl (λ m e, set e.1 e.2 m) [] entries.

(** [[...map.values()]] *)
Definition values (m : list (K * V)) : list V := m.*2.

Definition keys (m : list (K * V)) : list K := m.*1.
End Map.

(** Reading a list from the left and noting each key when it is first
    seen gives the keys in the order of their first occurrence. *)
Definition noteKey {K} `{EqDecision K} (seen : list K) (k : K) : list K :=
  if decide (k ∈ seen) then seen else seen ++ [k].

Definition firstOccurrences {K} `{EqDecision K} (l : list K) : list K :=
  foldl noteKey [] l.

(** A JavaScript number as far as the form looks at it. *)
Inductive number :=
| NaN
| Infinite (negative : bool)
| Finite (q : Q).

(** [Number.isFinite] *)
Definition isFinite (n : number) : bool :=
  match n with
  | Finite _ => true
  | _ => false
  end.

(** [a < b] *)
Definition lt (a b : number) : bool :=
  match a, b with
  | Finite x, Finite y => negb (Qle_bool y x)
  | Finite _, Infinite negative => negb negative
  | Infinite negative, Finite _ => negative
  | Infinite na, Infinite nb => na && negb nb
  | NaN, _ | _, NaN => false
  end.

(** [a > b] *)
Definition gt (a b : number) : bool := lt b a.

Definition ofZ (z : Z) : number := Finite (inject_Z z).

End Js.

(** ** Re-triage workflow state: [App] *)

Module App.

Inductive Page := dashboard | queue | addPatient | history | analytics.

(** The hooks of [App] that carry workflow state. *)
Record State := {
  page : Page;
  retriagePatient : option Patient;
}.

(** [useState("dashboard")], [useState(null)] *)
Definition mount : State := {| page := dashboard; retriagePatient := None |}.

(** [handleRetriage]: [setRetriagePatient(patient); setPage("addPatient")] *)
Definition handleRetriage (p : Patient) (s : State) : State :=
  {| page := addPatient; retriagePatient := Some p |}.

(** The [onClearRetriage] prop: [() => setRetriagePatient(null)] *)
Definition onClearRetriage (s : State) : State :=
  {| page := page s; retriagePatient := None |}.

(** The sidebar's [setActive]: [setPage(item.id)] *)
Definition setPage (pg : Page) (s : State) : State :=
  {| page := pg; retriagePatient := retriagePatient s |}.

(** [const isRetriage = !!patientToRetriage] in the form. *)
Definition isRetriage (s : State) : bool :=
  match retriagePatient s with
  | Some _ => true
  | None => false
  end.

End App.

(** ** Submission orchestrator: [AddPatientForm] *)

Module AddPatientForm.

Import Js.

(** The controlled inputs; the numeric inputs hold text. *)
Record Form := {
  f_patient_id : string;
  f_age : string;
  f_gender : string;
  f_rural : bool;
  f_heart_rate : string;
  f_systolic_bp : string;
  f_spo2 : string;
  f_temperature : string;
  f_symptoms : string;
}.

Record Vitals := {
  heart_rate : number;
  systolic_bp : number;
  spo2 : number;
  temperature : number;
}.

(** The body of [POST /triage]. *)
Record Payload := {
  p_patient_id : string;
  p_age : number;
  p_gender : string;
  p_rural : bool;
  p_vitals : Vitals;
  p_symptoms : list string;
}.

(** The response of [POST /triage]; a missing text field is empty, which
    [||] treats like [undefined]. *)
Record TriageResult := {
  r_risk_score : Z;
  r_triage_category : string;
  r_confidence : string;
  r_predicted_next_move : string;
  r_priority : string;
  r_timestamp : string;
}.

(** The response of [GET /patients/{id}/next-move-prediction]. *)
Record Prediction := {
  n_predicted_next_move : string;
  n_priority : string;
  n_confidence_band : string;
}.

(** The response of [GET /recommendations/clinical]; [None] is a body
    without a [recommendations] array. *)
Record RecommendationData := {
  rec_recommendations : option (list string);
}.

(** How the three endpoints answer. *)
Record Backend := {
  triage : Payload → Async.Outcome TriageResult;
  nextMove : string → Async.Outcome Prediction;
  recommendations : string → Async.Outcome RecommendationData;
}.

(** A request issued through [api]. *)
Inductive Call :=
| CallTriage (payload : Payload)
| CallNextMove (id : string)
| CallRecommendations (id : string).

(** The hooks of [AddPatientForm]. *)
Record View := {
  form : Form;
  loading : bool;
  result : option TriageResult;
  error : option string;
  v_nextMove : option Prediction;
  v_recommendations : list string;
}.

(** What [submit] can reach: its component's hooks, the gateway (requests
    are logged in the order issued), the parent's state through the
    [onClearRetriage] prop, and the screen, which shows the hooks as they
    stand at every suspension ([frames]). *)
Record World := {
  view : View;
  calls : list Call;
  frames : list View;
  app : App.State;
}.

Definition onView (f : View → View) (w : World) : World :=
  {| view := f (view w); calls := calls w; frames := frames w; app := app w |}.

Definition setLoading (b : bool) : Async.M World unit :=
  Async.modify (onView (λ v,
    {| form := form v; loading := b; result := result v; error := error v;
       v_nextMove := v_nextMove v; v_recommendations := v_recommendations v |})).

Definition setResult (r : option TriageResult) : Async.M World unit :=
  Async.modify (onView (λ v,
    {| form := form v; loading := loading v; result := r; error := error v;
       v_nextMove := v_nextMove v; v_recommendations := v_recommendations v |})).

Definition setError (e : option string) : Async.M World unit :=
  Async.modify (onView (λ v,
    {| form := form v; loading := loading v; result := result v; error := e;
       v_nextMove := v_nextMove v; v_recommendations := v_recommendations v |})).

Definition setNextMove (n : option Prediction) : Async.M World unit :=
  Async.modify (onView (λ v,
    {| form := form v; loading := loading v; result := result v;
       error := error v; v_nextMove := n;
       v_recommendations := v_recommendations v |})).

Definition setRecommendations (l : list string) : Async.M World unit :=
  Async.modify (onView (λ v,
    {| form := form v; loading := loading v; result := result v;
       error := error v; v_nextMove := v_nextMove v; v_recommendations := l |})).

(** The hooks as [submit] leaves them before its [try] block:
    [setLoading(true); setResult(null); setError(null); setNextMove(null);
     setRecommendations([])]. *)
Definition resetView (w : World) : View :=
  {| form := form (view w); loading := true; result := None; error := None;
     v_nextMove := None; v_recommendations := [] |}.

(** Issuing a request: it is on the wire before anything is awaited. *)
Definition issue (c : Call) : Async.M World unit :=
  Async.modify (λ w,
    {| view := view w; calls := calls w ++ [c]; frames := frames w;
       app := app w |}).

(** The handler is suspended; the screen shows the current hooks. *)
Definition suspend : Async.M World unit :=
  Async.modify (λ w,
    {| view := view w; calls := calls w; frames := frames w ++ [view w];
       app := app w |}).

(** The Cancel Re-triage button: [onClick={onClearRetriage}] *)
Definition cancelRetriage (w : World) : World :=
  {| view := view w; calls := calls w; frames := frames w;
     app := App.onClearRetriage (app w) |}.

Record Limits := { min : Z; max : Z; label : string }.

(** [INPUT_LIMITS] *)
Definition LIMITS_age := {| min := 0; max := 120; label := "Age" |}.
Definition LIMITS_heart_rate := {| min := 20; max := 240; label := "Heart rate" |}.
Definition LIMITS_systolic_bp := {| min := 50; max := 260; label := "Systolic BP" |}.
Definition LIMITS_spo2 := {| min := 50; max := 100; label := "SpO2" |}.
Definition LIMITS_temperature := {| min := 30; max := 45; label := "Temperature" |}.

(** [`${limits.label} must be between ${limits.min} and ${limits.max}.`] *)
Definition rangeMessage (l : Limits) : string :=
  label l +:+ " must be between " +:+ pretty (min l) +:+ " and "
    +:+ pretty (max l) +:+ ".".

(** The [for (const item of rangeChecks)] loop. *)
Fixpoint checkRanges {σ} (items : list (Limits * number)) : Async.M σ unit :=
  match items with
  | [] => mret tt
  | (limits, value) :: rest =>
      if lt value (ofZ (min limits)) || gt value (ofZ (max limits))
      then Async.throw (rangeMessage limits)
      else checkRanges rest
  end.

(** [form.symptoms.split(",").map((s) => s.trim()).filter(Boolean)] *)
Definition parseSymptoms (text : string) : list string :=
  filterBoolean (trim <$> split "," text).

(** [[...new Map(symptoms.map((s) => [s.toLowerCase(), s])).values()]] *)
Definition dedupedSymptoms (symptoms : list string) : list string :=
  values (newMap ((λ s, (toLowerCase s, s)) <$> symptoms)).

(** [a || b] *)
Definition orElse := Gateway.orElse.

Section Submit.

(** The built-in conversion [Number(text)] of an input's value. *)
Variable Number : string → number.

(** The [try] block of [submit] up to the payload; it reads the form and
    touches no hook. *)
Definition buildPayload {σ} (f : Form) : Async.M σ Payload :=
  let age := Number (f_age f) in
  let heartRate := Number (f_heart_rate f) in
  let systolicBp := Number (f_systolic_bp f) in
  let spo2 := Number (f_spo2 f) in
  let temperature := Number (f_temperature f) in
  (if forallb isFinite [age; heartRate; systolicBp; spo2; temperature]
   then mret tt
   else Async.throw "Please fill all required vitals before submitting.");;
  checkRanges [(LIMITS_age, age); (LIMITS_heart_rate, heartRate);
               (LIMITS_systolic_bp, systolicBp); (LIMITS_spo2, spo2);
               (LIMITS_temperature, temperature)];;
  let symptoms := parseSymptoms (f_symptoms f) in
  (if (12 <? length symptoms)%nat
   then Async.throw "Please provide up to 12 symptoms only."
   else mret tt);;
  mret {| p_patient_id := f_patient_id f;
          p_age := age;
          p_gender := f_gender f;
          p_rural := f_rural f;
          p_vitals := {| heart_rate := heartRate; systolic_bp := systolicBp;
                         spo2 := spo2; temperature := temperature |};
          p_symptoms := dedupedSymptoms symptoms |}.

(** [const submit = async (e) => { ... }] against a backend. *)
Definition submit (b : Backend) : Async.M World unit :=
  setLoading true;; setResult None;; setError None;; setNextMove None;;
  setRecommendations [];;
  w ← Async.get;
  Async.tryCatch
    (payload ← buildPayload (form (view w));
     issue (CallTriage payload);; suspend;;
     data ← Async.await (triage b payload);
     setResult (Some data);;
     issue (CallNextMove (p_patient_id payload));;
     issue (CallRecommendations (p_patient_id payload));;
     suspend;;
     predictionData ←
       Async.await (Async.catchNull (nextMove b (p_patient_id payload)));
     recommendationData ←
       Async.await (Async.catchNull (recommendations b (p_patient_id payload)));
     setNextMove predictionData;;
     setRecommendations
       (default [] (recommendationData ≫= rec_recommendations)))
    (λ message, setError (Some (orElse message "Failed to submit triage.")));;
  setLoading false.

(** The world a submission leaves behind. *)
Definition afterSubmit (b : Backend) (w : World) : World := (submit b w).2.

(** The payload the form validates to, or the validation message. *)
Definition payloadOf (f : Form) : string + Payload :=
  (buildPayload (σ := unit) f tt).1.

(** The requests issued by one submission. *)
Definition sent (b : Backend) (w : World) : list Call :=
  drop (length (calls w)) (calls (afterSubmit b w)).

End Submit.

(** The cells of the result card that come from the primary call: the
    badge, ["Risk Score"] and ["Confidence"]; the card is drawn only when
    [result] is set. *)
Record Card := {
  cardCategory : string;
  cardRisk : string;
  cardConfidence : string;
}.

Definition resultCard (v : View) : option Card :=
  match result v with
  | Some r => Some {| cardCategory := r_triage_category r;
                      cardRisk := pretty (r_risk_score r) +:+ " / 100";
                      cardConfidence := r_confidence r |}
  | None => None
  end.

(** [(nextMove || recommendations.length > 0) && ...]: whether the
    prediction section is drawn at all. *)
Definition predictionSection (v : View) : bool :=
  match v_nextMove v, v_recommendations v with
  | None, [] => false
  | _, _ => true
  end.

(** [{isRetriage && <div>✅ Re-triage recorded at ...</div>}] inside
    [{result && ...}]: the confirmation drawn after a re-triage went
    through, while the form is still in re-triage mode. *)
Definition retriageRecorded (w : World) : bool :=
  match result (view w) with
  | Some _ => App.isRetriage (app w)
  | None => false
  end.

(** [{error && <div>⚠ {error}</div>}]: the banner under the form. *)
Definition errorBanner (v : View) : option string :=
  match error v with
  | Some e => if decide (e = EmptyString) then None else Some e
  | None => None
  end.

End AddPatientForm.

(** ** Sample data *)

Module Fixtures.

Definition patient (id cat : string) (risk : Z) : Patient :=
  {| patient_id := id; triage := cat; risk_score := risk;
     status := "WAITING"; predicted_next_move := "OBSERVATION";
     priority := EmptyString |}.

Definition PAT : string := "PAT-2026-042".

(** One patient at three moments of a session. *)
Definition P85 : Patient := patient PAT "RED" 85.
Definition P30 : Patient := patient PAT "GREEN" 30.
Definition P70 : Patient := patient PAT "ORANGE" 70.

(** A queue of four: two patients share the risk score 70. *)
Definition queueOfFour : list Patient :=
  [patient "PAT-2026-017" "ORANGE" 70; P85; patient "PAT-2026-063" "GREEN" 12;
   patient "PAT-2026-021" "ORANGE" 70].

Definition snapshot (ps : list Patient) : QueueData :=
  {| patients := ps; queue_last_updated := "2026-01-01T10:00:00Z" |}.

(** [Number] on the texts typed below: a run of decimal digits converts to
    its value, the empty text to 0, and any other text used here to NaN. *)
Fixpoint digitsValue (acc : N) (s : string) : option N :=
  match s with
  | EmptyString => Some acc
  | String c s' =>
      let n := N_of_ascii c in
      if ((48 <=? n) && (n <=? 57))%N
      then digitsValue (acc * 10 + (n - 48)) s' else None
  end.

Definition Number (s : string) : Js.number :=
  match digitsValue 0 s with
  | Some n => Js.ofZ (Z.of_N n)
  | None => Js.NaN
  end.

Definition sampleForm : AddPatientForm.Form :=
  {| AddPatientForm.f_patient_id := PAT;
     AddPatientForm.f_age := "57";
     AddPatientForm.f_gender := "Male";
     AddPatientForm.f_rural := false;
     AddPatientForm.f_heart_rate := "130";
     AddPatientForm.f_systolic_bp := "120";
     AddPatientForm.f_spo2 := "97";
     AddPatientForm.f_temperature := "37";
     AddPatientForm.f_symptoms := "chest pain, Dizziness , ,CHEST PAIN" |}.

Definition samplePayload : AddPatientForm.Payload :=
  {| AddPatientForm.p_patient_id := PAT;
     AddPatientForm.p_age := Js.ofZ 57;
     AddPatientForm.p_gender := "Male";
     AddPatientForm.p_rural := false;
     AddPatientForm.p_vitals :=
       {| AddPatientForm.heart_rate := Js.ofZ 130;
          AddPatientForm.systolic_bp := Js.ofZ 120;
          AddPatientForm.spo2 := Js.ofZ 97;
          AddPatientForm.temperature := Js.ofZ 37 |};
     AddPatientForm.p_symptoms := ["CHEST PAIN"; "Dizziness"] |}.

Definition sampleResult : AddPatientForm.TriageResult :=
  {| AddPatientForm.r_risk_score := 85;
     AddPatientForm.r_triage_category := "RED";
     AddPatientForm.r_confidence := "HIGH";
     AddPatientForm.r_predicted_next_move := "ICU_ADMISSION";
     AddPatientForm.r_priority := "P1";
     AddPatientForm.r_timestamp := "2026-01-01T10:05:00Z" |}.

Definition samplePrediction : AddPatientForm.Prediction :=
  {| AddPatientForm.n_predicted_next_move := "ICU_ADMISSION";
     AddPatientForm.n_priority := "P1";
     AddPatientForm.n_confidence_band := "HIGH" |}.

(** A backend where every call succeeds. *)
Definition healthy : AddPatientForm.Backend :=
  {| AddPatientForm.triage := λ _, Async.Fulfilled sampleResult;
     AddPatientForm.nextMove := λ _, Async.Fulfilled samplePrediction;
     AddPatientForm.recommendations := λ _,
       Async.Fulfilled
         {| AddPatientForm.rec_recommendations := Some ["Start oxygen"] |} |}.

(** The triage call answers 422 with a validation detail. *)
Definition primaryDown : AddPatientForm.Backend :=
  {| AddPatientForm.triage := λ _,
       Async.Rejected
         (Gateway.errorMessage (Gateway.DetailList ["age out of range"]) 422);
     AddPatientForm.nextMove := λ _, Async.Fulfilled samplePrediction;
     AddPatientForm.recommendations := λ _,
       Async.Fulfilled
         {| AddPatientForm.rec_recommendations := Some ["Start oxygen"] |} |}.

(** The prediction call times out; the other two succeed. *)
Definition predictionDown : AddPatientForm.Backend :=
  {| AddPatientForm.triage := λ _, Async.Fulfilled sampleResult;
     AddPatientForm.nextMove := λ _, Async.Rejected "timeout";
     AddPatientForm.recommendations := λ _,
       Async.Fulfilled
         {| AddPatientForm.rec_recommendations := Some ["Start oxygen"] |} |}.

(** The form as first drawn, under a given [App] state. *)
Definition freshWorld (a : App.State) : AddPatientForm.World :=
  {| AddPatientForm.view :=
       {| AddPatientForm.form := sampleForm;
          AddPatientForm.loading := false;
          AddPatientForm.result := None;
          AddPatientForm.error := None;
          AddPatientForm.v_nextMove := None;
          AddPatientForm.v_recommendations := [] |};
     AddPatientForm.calls := [];
     AddPatientForm.frames := [];
     AddPatientForm.app := a |}.

(** The user pressed Re-triage on the queue row of the sample patient. *)
Definition retriaging : App.State := App.handleRetriage P85 App.mount.

(** Fetch durations in milliseconds: every fetch takes the same time. *)
Definition everyFetchTakes (ms : Z) : nat → Z := λ _, ms.

End Fixtures.

(** ** Form validation and symptom text *)

Module Validation.

Import Js AddPatientForm.

(** The value passes one entry of [rangeChecks]: neither
    [item.value < limits.min] nor [item.value > limits.max]. *)
Definition inRange (limits : Limits) (value : number) : bool :=
  negb (lt value (ofZ (min limits)) || gt value (ofZ (max limits))).

(** A finite number between the two limits, both included. *)
Definition accepts (limits : Limits) (value : number) : Prop :=
  ∃ q, value = Finite q
       ∧ (inject_Z (min limits) <= q)%Q ∧ (q <= inject_Z (max limits))%Q.

(** The five entries of [rangeChecks] for a form, in the order checked. *)
Definition rangeChecks (Number : string → number) (f : Form)
    : list (Limits * number) :=
  [(LIMITS_age, Number (f_age f));
   (LIMITS_heart_rate, Number (f_heart_rate f));
   (LIMITS_systolic_bp, Number (f_systolic_bp f));
   (LIMITS_spo2, Number (f_spo2 f));
   (LIMITS_temperature, Number (f_temperature f))].

(** The object literal [payload] of [submit]. *)
Definition payloadFor (Number : string → number) (f : Form) : Payload :=
  {| p_patient_id := f_patient_id f;
     p_age := Number (f_age f);
     p_gender := f_gender f;
     p_rural := f_rural f;
     p_vitals := {| heart_rate := Number (f_heart_rate f);
                    systolic_bp := Number (f_systolic_bp f);
                    spo2 := Number (f_spo2 f);
                    temperature := Number (f_temperature f) |};
     p_symptoms := dedupedSymptoms (parseSymptoms (f_symptoms f)) |}.

(** The three kinds of message the checks of [submit] throw. *)
Definition FILL_MESSAGE : string :=
  "Please fill all required vitals before submitting.".
Definition SYMPTOMS_MESSAGE : string :=
  "Please provide up to 12 symptoms only.".

(** [s.includes(c)] for one character. *)
Fixpoint hasChar (c : ascii) (s : string) : bool :=
  match s with
  | EmptyString => false
  | String c' s' => bool_decide (c' = c) || hasChar c s'
  end.

Definition firstChar (s : string) : option ascii :=
  match s with
  | EmptyString => None
  | String c _ => Some c
  end.

Fixpoint lastChar (s : string) : option ascii :=
  match s with
  | EmptyString => None
  | String c EmptyString => Some c
  | String _ s' => lastChar s'
  end.

(** Every character of the string is white space (so is the empty
    string). *)
Fixpoint allWhiteSpace (s : string) : bool :=
  match s with
  | EmptyString => true
  | String c s' => isWhiteSpace c && allWhiteSpace s'
  end.

(** The text the form shows for a record's symptoms when a re-triage
    starts: [patientToRetriage.symptoms.join(", ")]. *)
Definition symptomsText (symptoms : list string) : string :=
  Gateway.join ", " symptoms.

End Validation.

(** ** The gateway's [request] *)

Module Request.

(** What [fetch] resolves to, as far as [request] looks at it: the [ok]
    flag, the status, and the parsed body, [None] when [response.json()]
    throws. *)
Record Response (P : Type) := {
  ok : bool;
  status : N;
  json : option P;
}.
Arguments ok {P} _.
Arguments status {P} _.
Arguments json {P} _.

(** [async function request(path, options)], given how [fetch] settles;
    [empty] is the object [{}] and [detailOf] reads [payload.detail]. *)
Definition request {P} (empty : P) (detailOf : P → Gateway.Detail)
    (fetched : Async.Outcome (Response P)) : Async.Outcome P :=
  match fetched with
  | Async.Rejected message => Async.Rejected message
  | Async.Fulfilled response =>
      let payload := json response in
      if ok response then Async.Fulfilled (default empty payload)
      else
        Async.Rejected
          (Gateway.errorMessage
             (match payload with
              | Some p => detailOf p
              | None => Gateway.DetailOther
              end)
             (status response))
  end.

End Request.

(** ** Alert rows and dashboard cards *)

Module Cards.

(** The three tiers of [getNotifMessage] and [getColor]. *)
Inductive Tier := CRITICAL | WARNING | ALERT.

(** [if (p.risk_score >= 80) ... if (p.risk_score >= 60) ... ] *)
Definition tier (p : Patient) : Tier :=
  if 80 <=? risk_score p then CRITICAL
  else if 60 <=? risk_score p then WARNING
  else ALERT.

(** [p.risk_score >= 80 ? "#ef4444" : p.risk_score >= 60 ? "#f97316"
     : "#eab308"] *)
Definition getColor (p : Patient) : string :=
  if 80 <=? risk_score p then "#ef4444"
  else if 60 <=? risk_score p then "#f97316"
  else "#eab308".

(** [expanded && ... critical.length > 5
      && <div>+{critical.length - 5} more alerts</div>]:
    the number in the overflow line, when it is drawn. *)
Definition moreAlerts (s : Alerts.State) : option nat :=
  let n := length (Alerts.critical (Alerts.dismissed s) (Alerts.shown s)) in
  if Alerts.expanded s && (5 <? n)%nat then Some (n - 5)%nat else None.

(** QueueSummaryCard: [[...(patients || [])].sort(...).slice(0, 8)] *)
Definition queueSummary (ps : list Patient) : list Patient :=
  take 8 (Derived.sortedByRisk ps).

(** [pts.reduce((a, b) => a + b.risk_score, 0)] *)
Definition sumRisk (pts : list Patient) : Z :=
  foldl (λ a b, a + risk_score b) 0 pts.

(** [Math.round(s / n)] for integers [s] and [n > 0]: the nearest integer,
    a tie going up.  Risk scores are integers, so the sum is exact. *)
Definition roundDiv (s n : Z) : Z := (2 * s + n) `div` (2 * n).

(** DashboardPage: [pts.length ? Math.round(pts.reduce(...) / pts.length)
    : 0] *)
Definition avgRisk (pts : list Patient) : Z :=
  match pts with
  | [] => 0
  | _ => roundDiv (sumRisk pts) (Z.of_nat (length pts))
  end.

(** QueuePage after a run of polls, each settling in turn. *)
Definition afterFetches (responses : list (Async.Outcome QueueData))
    (s : QueuePage.State) : QueuePage.State :=
  foldl (λ s r, QueuePage.afterFetch r s) s responses.

(** The payload of the last of the polls that succeeded. *)
Definition lastFulfilled (responses : list (Async.Outcome QueueData))
    : option QueueData :=
  foldl (λ acc r, match r with
                  | Async.Fulfilled d => Some d
                  | Async.Rejected _ => acc
                  end) None responses.

End Cards.

(** ** Analytics screen *)

Module AnalyticsPage.

Record TriageCounts := { RED : Z; ORANGE : Z; YELLOW : Z; GREEN : Z }.

(** The fields of [GET /analytics/summary] behind the headline figures; a
    missing number is 0, which [|| 0] treats like [undefined]. *)
Record Summary := {
  total_records_24h : Z;
  critical_cases_24h : Z;
  triage_counts_24h : option TriageCounts;
}.

Record State := {
  summary : option Summary;
  loading : bool;
}.

Definition mount : State := {| summary := None; loading := true |}.

Definition setSummary (d : option Summary) (s : State) : State :=
  {| summary := d; loading := loading s |}.

Definition setLoading (b : bool) (s : State) : State :=
  {| summary := summary s; loading := b |}.

(** [try { const data = await api.analyticsSummary(); setSummary(data); }
     catch { setSummary(null); } finally { setLoading(false); }] *)
Definition loadSummary (response : Async.Outcome Summary)
    : Async.M State unit :=
  Async.tryCatch
    (data ← Async.await response; Async.modify (setSummary (Some data)))
    (λ _, Async.modify (setSummary None));;
  Async.modify (setLoading false).

Definition afterLoad (response : Async.Outcome Summary) (s : State) : State :=
  (loadSummary response s).2.

(** [summary?.total_records_24h || 0] *)
Definition total24h (s : State) : Z :=
  match summary s with
  | Some d => total_records_24h d
  | None => 0
  end.

(** [summary?.critical_cases_24h || 0] *)
Definition critical24h (s : State) : Z :=
  match summary s with
  | Some d => critical_cases_24h d
  | None => 0
  end.

(** [summary?.triage_counts_24h || { RED: 0, ORANGE: 0, YELLOW: 0,
    GREEN: 0 }] *)
Definition triage24h (s : State) : TriageCounts :=
  default {| RED := 0; ORANGE := 0; YELLOW := 0; GREEN := 0 |}
    (summary s ≫= triage_counts_24h).

(** [triageDistrib.reduce((acc, row) => acc + row.value, 0)] over the rows
    GREEN, YELLOW, ORANGE, RED. *)
Definition totalTriage24h (s : State) : Z :=
  foldl Z.add 0 [GREEN (triage24h s); YELLOW (triage24h s);
                 ORANGE (triage24h s); RED (triage24h s)].

End AnalyticsPage.

(** ** History screen *)

Module HistoryPage.

Import Js.

(** One entry of [patientHistory.records], newest first. *)
Record HistoryRecord := {
  timestamp : string;
  h_risk_score : Z;
  triage_category : string;
  h_status : string;
}.

(** The response of [GET /patients/{id}/history]; a missing [records]
    array reads as the empty list ([patientHistory?.records || []]). *)
Record History := {
  records : list HistoryRecord;
}.

(** [p.startsWith(prefix)] *)
Fixpoint startsWith (s prefix : string) : bool :=
  match prefix, s with
  | EmptyString, _ => true
  | String _ _, EmptyString => false
  | String a prefix', String b s' =>
      bool_decide (a = b) && startsWith s' prefix'
  end.

(** [s.includes(sub)] *)
Fixpoint includes (s sub : string) : bool :=
  startsWith s sub
  || match s with
     | EmptyString => false
     | String _ s' => includes s' sub
     end.

(** [allPatients.filter(p =>
      p.patient_id.toLowerCase().includes(searchQuery.toLowerCase()))] *)
Definition filtered (allPatients : list Patient) (searchQuery : string)
    : list Patient :=
  filter (λ p, includes (toLowerCase (patient_id p))
                        (toLowerCase searchQuery) = true) allPatients.

(** [if (!acc[day]) acc[day] = []; acc[day].push(rec)] on an object whose
    keys are day labels: an object lists such keys in the order they were
    added. *)
Fixpoint pushDay (day : string) (rec : HistoryRecord)
    (acc : list (string * list HistoryRecord))
    : list (string * list HistoryRecord) :=
  match acc with
  | [] => [(day, [rec])]
  | (d, recs) :: acc' =>
      if decide (day = d) then (d, recs ++ [rec]) :: acc'
      else (d, recs) :: pushDay day rec acc'
  end.

(** [records.length < 2 ? null : ...] with [latest = records[0]] and
    [prev = records[1]]. *)
Inductive Dir := up | down | same.

Record Trend := {
  dir : Dir;
  delta : Z;
  color : string;
}.

Definition getRiskTrend (records : list HistoryRecord) : option Trend :=
  match records with
  | latest :: prev :: _ =>
      if h_risk_score prev <? h_risk_score latest then
        Some {| dir := up; delta := h_risk_score latest - h_risk_score prev;
                color := "#ef4444" |}
      else if h_risk_score latest <? h_risk_score prev then
        Some {| dir := down; delta := h_risk_score prev - h_risk_score latest;
                color := "#22c55e" |}
      else Some {| dir := same; delta := 0; color := "#94a3b8" |}
  | _ => None
  end.

Section ByDay.

(** [formatDate(iso)]: the display date of a timestamp in the browser's
    locale. *)
Variable formatDate : string → string.

(** The day label of a record. *)
Definition dayOf (rec : HistoryRecord) : string := formatDate (timestamp rec).

(** A day with the records of that day, in their order in the list. *)
Definition dayEntry (l : list HistoryRecord) (d : string)
    : string * list HistoryRecord :=
  (d, filter (λ r, dayOf r = d) l).

(** [records.reduce((acc, rec) => { const day = formatDate(rec.timestamp);
      if (!acc[day]) acc[day] = []; acc[day].push(rec); return acc; }, {})],
    read as [Object.entries(recordsByDay)]. *)
Definition recordsByDay (records : list HistoryRecord)
    : list (string * list HistoryRecord) :=
  foldl (λ acc rec, pushDay (dayOf rec) rec acc) [] records.

End ByDay.

(** The hooks of [HistoryPage] that [loadPatientHistory] writes. *)
Record View := {
  selectedPatient : option string;
  patientHistory : option History;
  historyLoading : bool;
  nextDayPrediction :
    option (option AddPatientForm.Prediction
            * option AddPatientForm.RecommendationData);
  ndpLoading : bool;
}.

Inductive Call :=
| CallHistory (id : string) (limit : N)
| CallNextMove (id : string)
| CallRecommendations (id : string).

Record World := {
  view : View;
  calls : list Call;
}.

Record Backend := {
  history : string → N → Async.Outcome History;
  nextMove : string → Async.Outcome AddPatientForm.Prediction;
  recommendations : string → Async.Outcome AddPatientForm.RecommendationData;
}.

Definition mount : View :=
  {| selectedPatient := None; patientHistory := None; historyLoading := false;
     nextDayPrediction := None; ndpLoading := false |}.

Definition onView (f : View → View) (w : World) : World :=
  {| view := f (view w); calls := calls w |}.

Definition setSelectedPatient (id : option string) : Async.M World unit :=
  Async.modify (onView (λ v,
    {| selectedPatient := id; patientHistory := patientHistory v;
       historyLoading := historyLoading v;
       nextDayPrediction := nextDayPrediction v; ndpLoading := ndpLoading v |})).

Definition setPatientHistory (h : option History) : Async.M World unit :=
  Async.modify (onView (λ v,
    {| selectedPatient := selectedPatient v; patientHistory := h;
       historyLoading := historyLoading v;
       nextDayPrediction := nextDayPrediction v; ndpLoading := ndpLoading v |})).

Definition setHistoryLoading (b : bool) : Async.M World unit :=
  Async.modify (onView (λ v,
    {| selectedPatient := selectedPatient v;
       patientHistory := patientHistory v; historyLoading := b;
       nextDayPrediction := nextDayPrediction v; ndpLoading := ndpLoading v |})).

Definition setNextDayPrediction
    (n : option (option AddPatientForm.Prediction
                 * option AddPatientForm.RecommendationData))
    : Async.M World unit :=
  Async.modify (onView (λ v,
    {| selectedPatient := selectedPatient v;
       patientHistory := patientHistory v;
       historyLoading := historyLoading v;
       nextDayPrediction := n; ndpLoading := ndpLoading v |})).

Definition setNdpLoading (b : bool) : Async.M World unit :=
  Async.modify (onView (λ v,
    {| selectedPatient := selectedPatient v;
       patientHistory := patientHistory v;
       historyLoading := historyLoading v;
       nextDayPrediction := nextDayPrediction v; ndpLoading := b |})).

Definition issue (c : Call) : Async.M World unit :=
  Async.modify (λ w, {| view := view w; calls := calls w ++ [c] |}).

(** [const loadPatientHistory = async (patientId) => { ... }] *)
Definition loadPatientHistory (b : Backend) (patientId : string)
    : Async.M World unit :=
  setSelectedPatient (Some patientId);; setPatientHistory None;;
  setNextDayPrediction None;; setHistoryLoading true;; setNdpLoading true;;
  Async.tryCatch
    (issue (CallHistory patientId 50);;
     hist ← Async.await (history b patientId 50);
     setPatientHistory (Some hist))
    (λ _, setPatientHistory None);;
  setHistoryLoading false;;
  Async.tryCatch
    (issue (CallNextMove patientId);;
     issue (CallRecommendations patientId);;
     moveData ← Async.await (Async.catchNull (nextMove b patientId));
     recsData ← Async.await (Async.catchNull (recommendations b patientId));
     setNextDayPrediction (Some (moveData, recsData)))
    (λ _, mret tt);;
  setNdpLoading false.

Definition afterLoad (b : Backend) (patientId : string) (w : World) : World :=
  (loadPatientHistory b patientId w).2.

(** The three states of the prediction card:
    [ndpLoading ? "Calculating predictions..." : nextDayPrediction ? ...
     : "No prediction data available."] *)
Inductive PredictionCard := Calculating | PredictionShown | NoPredictionData.

Definition predictionCard (v : View) : PredictionCard :=
  if ndpLoading v then Calculating
  else match nextDayPrediction v with
       | Some _ => PredictionShown
       | None => NoPredictionData
       end.

End HistoryPage.

(** ** History modal of the queue screen *)

Module PatientHistoryModal.

Record State := {
  data : option HistoryPage.History;
  loading : bool;
  error : option string;
}.

(** [useState(null)], [useState(true)], [useState(null)] *)
Definition mount : State := {| data := None; loading := true; error := None |}.

(** [api.history(patientId, 50).then(setData)
      .catch(e => setError("Could not load patient history."))
      .finally(() => setLoading(false))] *)
Definition settle (response : Async.Outcome HistoryPage.History) (s : State)
    : State :=
  match response with
  | Async.Fulfilled d => {| data := Some d; loading := false; error := error s |}
  | Async.Rejected _ =>
      {| data := data s; loading := false;
         error := Some "Could not load patient history." |}
  end.

(** [const records = data?.records || []] *)
Definition records (s : State) : list HistoryPage.HistoryRecord :=
  match data s with
  | Some d => HistoryPage.records d
  | None => []
  end.

(** The four conditional blocks of the modal body. *)
Definition spinner (s : State) : bool := loading s.
Definition errorText (s : State) : bool := bool_decide (is_Some (error s)).
Definition emptyNotice (s : State) : bool :=
  negb (loading s) && negb (bool_decide (is_Some (error s)))
  && bool_decide (records s = []).
Definition recordList (s : State) : bool :=
  negb (loading s) && negb (bool_decide (records s = [])).

End PatientHistoryModal.

(** ** Wait-time clock *)

Module Clock.

(** [timeSince(iso)], with [Date.now()] and the parsed timestamp in
    milliseconds; [%] is the remainder that takes the sign of the
    dividend. *)
Record Elapsed := { minutes : Z; seconds : Z; total : Z }.

Definition timeSince (now iso : Z) : Elapsed :=
  let diff := (now - iso) `div` 1000 in
  {| minutes := diff `div` 60; seconds := diff `rem` 60; total := diff |}.

(** [timerColor(minutes)] *)
Definition timerColor (minutes : Z) : string :=
  if minutes <? 5 then "#22c55e"
  else if minutes <=? 10 then "#f97316"
  else "#ef4444".

(** TimerCell: the colour of the wait time of a queue row. *)
Definition cellColor (now lastUpdated : Z) : string :=
  timerColor (minutes (timeSince now lastUpdated)).

End Clock.

(** ** Navigation in [App] *)

Module Navigation.

(** What the user can do to [App]'s workflow state: press Re-triage on a
    record, press Cancel Re-triage in the form, pick a page in the sidebar,
    or click the "Re-triage ready" chip of the top bar. *)
Inductive Event :=
| Retriage (p : Patient)
| Cancel
| Goto (pg : App.Page)
| Chip.

Definition step (s : App.State) (e : Event) : App.State :=
  match e with
  | Retriage p => App.handleRetriage p s
  | Cancel => App.onClearRetriage s
  | Goto pg => App.setPage pg s
  | Chip => App.setPage App.addPatient s
  end.

Definition run (s : App.State) (es : list Event) : App.State := foldl step s es.

(** [page !== "addPatient"] *)
Definition notAddPatient (pg : App.Page) : bool :=
  match pg with
  | App.addPatient => false
  | _ => true
  end.

(** [retriagePatient && page !== "addPatient"]: the chip is drawn. *)
Definition chipShown (s : App.State) : bool :=
  App.isRetriage s && notAddPatient (App.page s).

(** [key={retriagePatient?.patient_id || "new"}] of the form. *)
Definition formKey (s : App.State) : string :=
  match App.retriagePatient s with
  | Some p => Gateway.orElse (patient_id p) "new"
  | None => "new"
  end.

Definition isNavigation (e : Event) : Prop :=
  match e with
  | Goto _ | Chip => True
  | _ => False
  end.

End Navigation.

(** ** Generated patient ids *)

Module PatientId.

(** [genPatientId()], given [k = Math.floor(Math.random() * 90)]:
    [`PAT-2026-0${k + 10}`]. *)
Definition genPatientId (k : N) : string := "PAT-2026-0" +:+ pretty (k + 10)%N.

End PatientId.

(** ** Cells of the result card merged from two responses *)

Module ResultCells.

Import AddPatientForm.

(** [s.replaceAll("_", " ")] *)
Fixpoint replaceUnderscores (s : string) : string :=
  match s with
  | EmptyString => EmptyString
  | String c s' =>
      String (if decide (c = "_"%char) then " "%char else c)
             (replaceUnderscores s')
  end.

(** [nextMove?.predicted_next_move] *)
Definition predictedBy (n : option Prediction) : string :=
  match n with
  | Some p => n_predicted_next_move p
  | None => EmptyString
  end.

(** [nextMove?.priority] *)
Definition priorityBy (n : option Prediction) : string :=
  match n with
  | Some p => n_priority p
  | None => EmptyString
  end.

(** ["Predicted Move"]: [(nextMove?.predicted_next_move
      || result.predicted_next_move || "N/A").replaceAll("_", " ")] *)
Definition predictedMoveCell (n : option Prediction) (r : TriageResult)
    : string :=
  replaceUnderscores
    (orElse (orElse (predictedBy n) (r_predicted_next_move r)) "N/A").

(** ["Priority"]: [nextMove?.priority || result.priority || "N/A"] *)
Definition priorityCell (n : option Prediction) (r : TriageResult) : string :=
  orElse (orElse (priorityBy n) (r_priority r)) "N/A".

End ResultCells.

(** ** More sample data *)

Module Samples.

(** Age and heart rate are both outside their limits. *)
Definition outOfRangeForm : AddPatientForm.Form :=
  {| AddPatientForm.f_patient_id := Fixtures.PAT;
     AddPatientForm.f_age := "130";
     AddPatientForm.f_gender := "Male";
     AddPatientForm.f_rural := false;
     AddPatientForm.f_heart_rate := "5";
     AddPatientForm.f_systolic_bp := "120";
     AddPatientForm.f_spo2 := "97";
     AddPatientForm.f_temperature := "37";
     AddPatientForm.f_symptoms := "fever" |}.

Definition outOfRangeWorld : AddPatientForm.World :=
  {| AddPatientForm.view :=
       {| AddPatientForm.form := outOfRangeForm;
          AddPatientForm.loading := false;
          AddPatientForm.result := None;
          AddPatientForm.error := None;
          AddPatientForm.v_nextMove := None;
          AddPatientForm.v_recommendations := [] |};
     AddPatientForm.calls := [];
     AddPatientForm.frames := [];
     AddPatientForm.app := App.mount |}.

(** A 422 answer whose body carries a validation detail list. *)
Definition rejected422 : Request.Response Gateway.Detail :=
  {| Request.ok := false; Request.status := 422;
     Request.json :=
       Some (Gateway.DetailList ["age out of range"; EmptyString]) |}.

(** Labelled RED by the backend with a score below every alert threshold. *)
Definition redAtForty : Patient := Fixtures.patient "PAT-2026-055" "RED" 40.

(** Seven critical patients on the dashboard, none dismissed. *)
Definition sevenCritical : Alerts.State :=
  Alerts.run Alerts.mount
    [Alerts.Snapshot
       ((λ i, Fixtures.patient ("PAT-2026-01" +:+ pretty i) "RED" 90)
          <$> [1; 2; 3; 4; 5; 6; 7]%N)].

(** Day labels for the samples: the date part of an ISO timestamp. *)
Definition isoDay (iso : string) : string := String.substring 0 10 iso.

Definition visit (iso : string) (risk : Z) : HistoryPage.HistoryRecord :=
  {| HistoryPage.timestamp := iso; HistoryPage.h_risk_score := risk;
     HistoryPage.triage_category := "ORANGE";
     HistoryPage.h_status := "WAITING" |}.

(** Five visits on two days, newest first. *)
Definition fiveVisits : list HistoryPage.HistoryRecord :=
  [visit "2026-01-02T18:00:00Z" 70; visit "2026-01-02T09:30:00Z" 85;
   visit "2026-01-01T22:10:00Z" 60; visit "2026-01-01T12:00:00Z" 30;
   visit "2026-01-01T08:00:00Z" 30].

(** The history call fails; prediction and recommendations answer. *)
Definition historyDown : HistoryPage.Backend :=
  {| HistoryPage.history := λ _ _, Async.Rejected "API 500";
     HistoryPage.nextMove := λ _, Async.Fulfilled Fixtures.samplePrediction;
     HistoryPage.recommendations := λ _, Async.Rejected "timeout" |}.

End Samples.

(** * Properties *)

(** ** Derived views: ordering and tallies *)

Section DerivedFacts.
Import Derived.

Lemma insert_Permutation {A} (cmp : A → A → Z) x l :
  insert cmp x l ≡ₚ x :: l.
Proof.
  induction l as [|y l IH]; simpl; [done|].
  destruct (0 <? cmp x y); [|done].
  rewrite IH. apply Permutation_swap.
Qed.

Lemma Array_sort_Permutation {A} (cmp : A → A → Z) l :
  Array_sort cmp l ≡ₚ l.
Proof.
  induction l as [|x l IH]; simpl; [done|].
  by rewrite insert_Permutation, IH.
Qed.

Lemma insert_byRisk_sorted x l :
  StronglySorted riskGe l → StronglySorted riskGe (insert byRiskDesc x l).
Proof.
  induction 1 as [|y l Hl IH Hy]; simpl.
  - repeat constructor.
  - unfold byRiskDesc at 1. destruct (Z.ltb_spec 0 (risk_score y - risk_score x)).
    + constructor; [done|].
      rewrite insert_Permutation. constructor; [unfold riskGe; lia | done].
    + constructor; [by constructor|].
      constructor; [unfold riskGe; lia|].
      eapply Forall_impl; [exact Hy|]. unfold riskGe. intros; lia.
Qed.

Lemma sortedByRisk_sorted ps : StronglySorted riskGe (sortedByRisk ps).
Proof.
  induction ps as [|x ps IH]; simpl; [constructor|].
  by apply insert_byRisk_sorted.
Qed.

(** Inserting does not reorder patients of one risk score. *)
Lemma insert_byRisk_ties r x l :
  filter (λ p, risk_score p = r) (insert byRiskDesc x l)
  = filter (λ p, risk_score p = r) (x :: l).
Proof.
  induction l as [|y l IH]; simpl; [done|].
  unfold byRiskDesc at 1. destruct (Z.ltb_spec 0 (risk_score y - risk_score x)); [|done].
  rewrite filter_cons, IH, !filter_cons.
  repeat case_decide; try done; lia.
Qed.

Lemma sortedByRisk_ties r ps :
  filter (λ p, risk_score p = r) (sortedByRisk ps)
  = filter (λ p, risk_score p = r) ps.
Proof.
  induction ps as [|x ps IH]; [done|].
  unfold sortedByRisk in *. simpl. rewrite insert_byRisk_ties, !filter_cons, IH.
  done.
Qed.

(** A list already in order is returned as it is. *)
Lemma sortedByRisk_fixed ps :
  StronglySorted riskGe ps → sortedByRisk ps = ps.
Proof.
  induction 1 as [|x l Hl IH Hx]; [done|].
  unfold sortedByRisk in *. simpl. rewrite IH.
  destruct l as [|y l]; [done|]. simpl.
  apply Forall_cons in Hx as [Hxy _]. unfold riskGe in Hxy.
  unfold byRiskDesc. destruct (Z.ltb_spec 0 (risk_score y - risk_score x)); [lia|done].
Qed.

(** Descending order and stability leave no choice: two descending
    arrangements that agree on every group of equal risk are the same list.
    So any sort that meets the language's stability requirement returns what
    [sortedByRisk] returns. *)
Lemma stable_descending_unique (l l' : list Patient) :
  StronglySorted riskGe l → StronglySorted riskGe l' →
  (∀ r, filter (λ p, risk_score p = r) l
        = filter (λ p, risk_score p = r) l') →
  l = l'.
Proof.
  intros Hl. revert l'.
  induction Hl as [|x t Ht IH Hx]; intros l' Hl' Hf.
  - destruct l' as [|y t']; [done|].
    specialize (Hf (risk_score y)).
    rewrite filter_nil, filter_cons_True in Hf by done. discriminate Hf.
  - destruct Hl' as [|y t' Ht' Hy].
    + specialize (Hf (risk_score x)).
      rewrite filter_nil, filter_cons_True in Hf by done. discriminate Hf.
    + assert (risk_score x ≤ risk_score y) as Hxy.
      { assert (x ∈ y :: t') as Hin.
        { eapply (proj1 (list_elem_of_filter
                          (λ p, risk_score p = risk_score x) _ _)).
          rewrite <- Hf, filter_cons_True by done. by left. }
        apply elem_of_cons in Hin as [->|Hin]; [done|].
        by apply (proj1 (Forall_forall _ _) Hy). }
      assert (risk_score y ≤ risk_score x) as Hyx.
      { assert (y ∈ x :: t) as Hin.
        { eapply (proj1 (list_elem_of_filter
                          (λ p, risk_score p = risk_score y) _ _)).
          rewrite Hf, filter_cons_True by done. by left. }
        apply elem_of_cons in Hin as [->|Hin]; [done|].
        by apply (proj1 (Forall_forall _ _) Hx). }
      assert (risk_score y = risk_score x) as E by lia.
      pose proof (Hf (risk_score x)) as Hhead.
      rewrite !filter_cons_True in Hhead by done.
      injection Hhead as -> _. f_equal. apply IH; [done|].
      intros r. specialize (Hf r). rewrite !filter_cons in Hf.
      case_decide; [by injection Hf|done].
Qed.

(** Each patient of a well-formed snapshot is counted by exactly one of
    the four tallies. *)
Lemma four_tallies ps :
  Forall validCategory ps →
  (countCategory "RED" ps + countCategory "ORANGE" ps
   + countCategory "YELLOW" ps + countCategory "GREEN" ps)%nat = length ps.
Proof.
  unfold countCategory.
  induction 1 as [|p ps Hp _ IH]; [done|].
  rewrite !filter_cons. unfold validCategory, CATEGORIES in Hp.
  rewrite !elem_of_cons, elem_of_nil in Hp.
  destruct Hp as [Hp|[Hp|[Hp|[Hp|[]]]]]; rewrite Hp;
    repeat case_decide; try done; simpl; lia.
Qed.

(** Whatever the categories, no patient is counted twice. *)
Lemma four_tallies_le ps :
  (countCategory "RED" ps + countCategory "ORANGE" ps
   + countCategory "YELLOW" ps + countCategory "GREEN" ps ≤ length ps)%nat.
Proof.
  unfold countCategory.
  induction ps as [|p ps IH]; [done|].
  rewrite !filter_cons.
  repeat case_decide; simpl; try lia; congruence.
Qed.

Lemma countCategory_Permutation cat ps qs :
  ps ≡ₚ qs → countCategory cat ps = countCategory cat qs.
Proof. intros H. unfold countCategory. by rewrite H. Qed.

(** C8: the risk-sorted list of a snapshot is in descending order of
    [risk_score], holds exactly the snapshot's patients, keeps patients of
    equal [risk_score] in their snapshot order, and sorting it again
    changes nothing. *)
Theorem sortedByRisk_descending_stable (ps : list Patient) :
  StronglySorted riskGe (sortedByRisk ps)
  ∧ sortedByRisk ps ≡ₚ ps
  ∧ (∀ r, filter (λ p, risk_score p = r) (sortedByRisk ps)
          = filter (λ p, risk_score p = r) ps)
  ∧ sortedByRisk (sortedByRisk ps) = sortedByRisk ps.
Proof.
  split_and!.
  - apply sortedByRisk_sorted.
  - apply Array_sort_Permutation.
  - intros r. apply sortedByRisk_ties.
  - apply sortedByRisk_fixed, sortedByRisk_sorted.
Qed.

(** C9: for a snapshot whose patients carry one of the four triage
    categories, the four tallies of the queue screen (taken over the sorted
    list) and the four of the dashboard each sum to the number of patients
    in the snapshot; a category without patients tallies zero. *)
Theorem categoryCounts_sum (d : QueueData) :
  Forall validCategory (patients d) →
  sum_list (categoryStats (sorted (Some d))).*2 = length (patients d)
  ∧ (categoryStats (sorted (Some d))).*1 = CATEGORIES
  ∧ (red (patients d) + orange (patients d) + yellow (patients d)
     + green (patients d))%nat = length (patients d).
Proof.
  intros Hvalid. split_and!.
  - unfold categoryStats, CATEGORIES, sorted, sortedByRisk.
    rewrite !fmap_cons. cbn [fmap list_fmap snd sum_list sum_list_with].
    rewrite !(countCategory_Permutation _ _ _ (Array_sort_Permutation _ _)).
    pose proof (four_tallies _ Hvalid). unfold id. lia.
  - done.
  - by apply four_tallies.
Qed.

End DerivedFacts.

Lemma categoryCounts_sum_witness :
  let d := Fixtures.snapshot Fixtures.queueOfFour in
  Forall Derived.validCategory (patients d)
  ∧ sum_list (Derived.categoryStats (Derived.sorted (Some d))).*2 = 4%nat.
Proof.
  intros d.
  assert (Forall Derived.validCategory (patients d)) as Hvalid
    by (repeat constructor).
  split; [done|].
  exact (proj1 (categoryCounts_sum d Hvalid)).
Defined.

(** The queue of four, sorted: the two patients at risk 70 keep their
    snapshot order. *)
Example sortedByRisk_queueOfFour :
  patient_id <$> Derived.sortedByRisk Fixtures.queueOfFour
  = ["PAT-2026-042"; "PAT-2026-017"; "PAT-2026-021"; "PAT-2026-063"].
Proof. reflexivity. Qed.

(** ** Alert lifecycle *)

Section AlertFacts.
Import Alerts.

Lemma step_dismissed_mono s e id :
  id ∈ dismissed s → id ∈ dismissed (step s e).
Proof.
  intros Hid. destruct e as [ps|id'|]; simpl; [done| |done].
  case_bool_decide; [|done]. simpl. unfold dismiss.
  apply elem_of_union. by left.
Qed.

Lemma run_dismissed_mono es s id :
  id ∈ dismissed s → id ∈ dismissed (run s es).
Proof.
  revert s. induction es as [|e es IH]; intros s Hid; [done|].
  apply IH. by apply step_dismissed_mono.
Qed.

Lemma dismissed_not_critical d ps id :
  id ∈ d → id ∉ patient_id <$> critical d ps.
Proof.
  intros Hid [p [-> Hp]]%list_elem_of_fmap.
  unfold critical in Hp. apply list_elem_of_filter in Hp as [Hp _]. done.
Qed.

Lemma rendered_subset_critical id s :
  alertRendered id s → id ∈ patient_id <$> critical (dismissed s) (shown s).
Proof.
  unfold alertRendered, rendered. destruct (expanded s).
  - intros [p [-> Hp]]%list_elem_of_fmap. apply list_elem_of_fmap.
    exists p. split; [done|]. eapply subseteq_take, Hp.
  - by intros ?%elem_of_nil.
Qed.

Lemma dismissed_not_rendered id s :
  id ∈ dismissed s → ¬ alertRendered id s.
Proof.
  intros Hid Hr%rendered_subset_critical. by eapply dismissed_not_critical.
Qed.

Lemma rendered_inCriticalSubset id s :
  alertRendered id s → inCriticalSubset id (shown s).
Proof.
  intros Hr%rendered_subset_critical.
  apply list_elem_of_fmap in Hr as [p [-> Hp]]. apply list_elem_of_fmap. exists p. split; [done|].
  unfold critical in Hp. by apply list_elem_of_filter in Hp as [_ Hp].
Qed.

Lemma dismiss_effective id s :
  alertRendered id s → id ∈ dismissed (step s (Dismiss id)).
Proof.
  intros Hr. simpl. rewrite bool_decide_eq_true_2 by exact Hr.
  simpl. unfold dismiss. set_solver.
Qed.

Lemma step_shown_critical id s e :
  (∀ ps, e = Snapshot ps → inCriticalSubset id ps) →
  inCriticalSubset id (shown s) → inCriticalSubset id (shown (step s e)).
Proof.
  intros He Hs. destruct e as [ps|id'|]; simpl; [by apply He| |done].
  by case_bool_decide.
Qed.

Lemma run_shown_critical id es s :
  staysCritical id es →
  inCriticalSubset id (shown s) → inCriticalSubset id (shown (run s es)).
Proof.
  revert s. induction es as [|e es IH]; intros s Hes Hs; [done|].
  apply IH.
  - intros ps Hps. apply Hes. by right.
  - apply step_shown_critical; [|done]. intros ps ->. apply Hes. by left.
Qed.

Lemma run_app s es1 es2 : run s (es1 ++ es2) = run (run s es1) es2.
Proof. apply foldl_app. Qed.

(** C6: once the user has dismissed the alert of a patient, and every later
    snapshot keeps that patient in the critical subset, then at every later
    moment of the session the patient is still critical, still dismissed, and
    its alert is neither drawn nor counted. *)
Theorem dismissed_stays_hidden_while_critical
    (s : State) (id : string) (es : list Event) :
  alertRendered id s →
  staysCritical id es →
  ∀ es', es' `prefix_of` es →
    let s' := run (step s (Dismiss id)) es' in
    inCriticalSubset id (shown s')
    ∧ id ∈ dismissed s'
    ∧ ¬ alertRendered id s'
    ∧ id ∉ patient_id <$> critical (dismissed s') (shown s').
Proof.
  intros Hr Hes es' [es'' ->] s'.
  assert (id ∈ dismissed s') as Hd
    by (apply run_dismissed_mono; by apply dismiss_effective).
  split_and!; [|done|by apply dismissed_not_rendered
               |by apply dismissed_not_critical].
  apply run_shown_critical.
  - intros ps Hps. apply Hes. apply elem_of_app. by left.
  - apply step_shown_critical; [done|]. by apply rendered_inCriticalSubset.
Qed.

Lemma dismissed_stays_hidden_while_critical_witness :
  let s := run mount [Snapshot [Fixtures.P85]] in
  let es := [Snapshot [Fixtures.P70]; Toggle; Toggle; Snapshot [Fixtures.P85]] in
  let s' := run (step s (Dismiss Fixtures.PAT)) es in
  alertRendered Fixtures.PAT s
  ∧ staysCritical Fixtures.PAT es
  ∧ ¬ alertRendered Fixtures.PAT s'.
Proof.
  intros s es s'.
  assert (alertRendered Fixtures.PAT s) as Hr by (vm_compute; by left).
  assert (staysCritical Fixtures.PAT es) as Hes.
  { intros ps Hps. unfold es in Hps.
    rewrite !elem_of_cons, elem_of_nil in Hps.
    destruct Hps as [Hps|[Hps|[Hps|[Hps|[]]]]]; try discriminate Hps;
      injection Hps as ->; vm_compute; by left. }
  split_and!; [done|done|].
  exact (proj1 (proj2 (proj2
    (dismissed_stays_hidden_while_critical s Fixtures.PAT es Hr Hes es
       (reflexivity es))))).
Defined.

(** C1, as the code has it: a dismissal is never cleared while the
    dashboard stays mounted.  When a dismissed patient leaves the critical
    subset and a later snapshot brings it back, the id is still in the
    dismissed set and its alert is neither drawn nor counted, although the
    patient is critical again; a freshly mounted component, whose dismissed
    set is empty, counts it. *)
Theorem dismissal_survives_exit_and_reentry
    (s : State) (id : string) (es1 es2 : list Event)
    (psOut psIn : list Patient) :
  alertRendered id s →
  ¬ inCriticalSubset id psOut →
  inCriticalSubset id psIn →
  let s' := run (step s (Dismiss id))
              (es1 ++ [Snapshot psOut] ++ es2 ++ [Snapshot psIn]) in
  inCriticalSubset id (shown s')
  ∧ id ∈ dismissed s'
  ∧ ¬ alertRendered id s'
  ∧ (id ∉ patient_id <$> critical (dismissed s') (shown s'))
  ∧ id ∈ patient_id <$> critical (dismissed mount) psIn.
Proof.
  intros Hr Hout Hin s'.
  assert (id ∈ dismissed s') as Hd
    by (apply run_dismissed_mono; by apply dismiss_effective).
  split_and!; [|done|by apply dismissed_not_rendered
               |by apply dismissed_not_critical|].
  - unfold s'. rewrite !app_assoc, run_app. done.
  - apply list_elem_of_fmap in Hin as [p [-> Hp]]. apply list_elem_of_fmap.
    exists p. split; [done|]. unfold critical. apply list_elem_of_filter.
    split; [|done]. simpl. set_solver.
Qed.

Lemma dismissal_survives_exit_and_reentry_witness :
  let s := run mount [Snapshot [Fixtures.P85]] in
  let s' := run (step s (Dismiss Fixtures.PAT))
              ([] ++ ([Snapshot [Fixtures.P30]] ++ ([] ++ [Snapshot [Fixtures.P70]]))) in
  alertRendered Fixtures.PAT s
  ∧ ¬ inCriticalSubset Fixtures.PAT [Fixtures.P30]
  ∧ inCriticalSubset Fixtures.PAT [Fixtures.P70]
  ∧ ¬ alertRendered Fixtures.PAT s'.
Proof.
  intros s s'.
  assert (alertRendered Fixtures.PAT s) as Hr by (vm_compute; by left).
  assert (¬ inCriticalSubset Fixtures.PAT [Fixtures.P30]) as Hout
    by (vm_compute; by intros ?%elem_of_nil).
  assert (inCriticalSubset Fixtures.PAT [Fixtures.P70]) as Hin
    by (vm_compute; by left).
  split_and!; [done|done|done|].
  exact (proj1 (proj2 (proj2
    (dismissal_survives_exit_and_reentry s Fixtures.PAT [] []
       [Fixtures.P30] [Fixtures.P70] Hr Hout Hin)))).
Defined.

(** C1 fails on the fixture of the specification: risk 85, dismissed, risk
    30 (out of the critical subset), risk 70 (back in it): the alert was
    drawn before the dismissal and the patient is critical again, yet no
    alert is drawn or counted. *)
Lemma dismissal_not_rearmed_counterexample :
  let s := run mount [Snapshot [Fixtures.P85]] in
  let s' := run s [Dismiss Fixtures.PAT; Snapshot [Fixtures.P30];
                   Snapshot [Fixtures.P70]] in
  alertRendered Fixtures.PAT s
  ∧ ¬ inCriticalSubset Fixtures.PAT [Fixtures.P30]
  ∧ inCriticalSubset Fixtures.PAT (shown s')
  ∧ expanded s' = true
  ∧ ¬ alertRendered Fixtures.PAT s'
  ∧ badge s' = 0%nat.
Proof.
  intros s s'.
  assert (Fixtures.PAT ∈ dismissed s') as Hd.
  { apply (run_dismissed_mono [Snapshot [Fixtures.P30]; Snapshot [Fixtures.P70]]).
    apply dismiss_effective. vm_compute. by left. }
  split_and!.
  - vm_compute. by left.
  - vm_compute. by intros ?%elem_of_nil.
  - vm_compute. by left.
  - done.
  - by apply dismissed_not_rendered.
  - unfold badge. change (shown s') with [Fixtures.P70].
    unfold critical. change (criticalSubset [Fixtures.P70]) with [Fixtures.P70].
    rewrite filter_cons. case_decide as Hn; [|done]. by destruct Hn.
Qed.

End AlertFacts.

(** ** Snapshot pollers *)

Section PollerFacts.
Import Poller.

Lemma afterTicks_started interval latency n :
  started (afterTicks interval latency n) = S n.
Proof. induction n as [|n IH]; simpl; [done|]. by rewrite IH. Qed.

(** An interval callback sends its request whatever is still pending. *)
Lemma tick_starts_fetch interval latency n :
  {| fetch_no := n; settles_at := Z.of_nat n * interval + latency n |}
  ∈ inFlight (afterTicks interval latency n).
Proof.
  destruct n as [|n]; simpl.
  - rewrite Z.add_0_l. by left.
  - apply elem_of_app. right. rewrite afterTicks_started. by left.
Qed.

(** Settling takes nothing but settled fetches away. *)
Lemma settleDue_length now s :
  (length (inFlight (settleDue now s)) ≤ length (inFlight s))%nat.
Proof. simpl. apply length_filter. Qed.

Lemma afterTicks_fast interval latency n :
  (∀ k, latency k < interval) →
  inFlight (afterTicks interval latency n)
  = [{| fetch_no := n; settles_at := Z.of_nat n * interval + latency n |}].
Proof.
  intros Hfast. induction n as [|n IH].
  - simpl. by rewrite Z.add_0_l.
  - cbn [afterTicks]. unfold onInterval, startFetch, settleDue.
    cbn [inFlight started]. rewrite afterTicks_started.
    rewrite IH, filter_cons, filter_nil. cbn [settles_at].
    case_decide as Hlate; [|done].
    specialize (Hfast n). lia.
Qed.

(** C2, as the code has it: the interval callback does not wait for the
    previous fetch.  When every fetch of a poller settles in less time than
    the interval, the only fetch pending right after a tick is the one that
    tick started, and at no time are two fetches pending. *)
Theorem single_flight_when_fetch_beats_interval
    (interval : Z) (latency : nat → Z) :
  0 < interval →
  (∀ k, latency k < interval) →
  (∀ n, inFlight (afterTicks interval latency n)
        = [{| fetch_no := n;
              settles_at := Z.of_nat n * interval + latency n |}])
  ∧ (∀ t, 0 ≤ t → (pendingAt interval latency t ≤ 1)%nat).
Proof.
  intros Hpos Hfast. split.
  - intros n. by apply afterTicks_fast.
  - intros t Ht. unfold pendingAt, atTime.
    etrans; [apply settleDue_length|].
    by rewrite afterTicks_fast.
Qed.

Lemma single_flight_when_fetch_beats_interval_witness :
  0 < QUEUE_INTERVAL
  ∧ (∀ k : nat, Fixtures.everyFetchTakes 300 k < QUEUE_INTERVAL)
  ∧ (pendingAt QUEUE_INTERVAL (Fixtures.everyFetchTakes 300) 10000 ≤ 1)%nat.
Proof.
  assert (0 < QUEUE_INTERVAL) as Hpos by reflexivity.
  assert (∀ k : nat, Fixtures.everyFetchTakes 300 k < QUEUE_INTERVAL) as Hfast
    by (intros k; reflexivity).
  split_and!; [done|done|].
  apply (proj2 (single_flight_when_fetch_beats_interval
                  QUEUE_INTERVAL (Fixtures.everyFetchTakes 300) Hpos Hfast)).
  vm_compute. discriminate.
Defined.

(** C2 fails when a fetch outlasts the interval: with fetches of 25 s on
    the queue screen, 40 s on the dashboard and 70 s on the analytics screen,
    two fetches of the same poller are pending at the first tick, and on the
    queue screen three at the second. *)
Lemma overlapping_fetches_counterexample :
  pendingAt QUEUE_INTERVAL (Fixtures.everyFetchTakes 25000) 10000 = 2%nat
  ∧ pendingAt QUEUE_INTERVAL (Fixtures.everyFetchTakes 25000) 20000 = 3%nat
  ∧ pendingAt DASHBOARD_INTERVAL (Fixtures.everyFetchTakes 40000) 15000 = 2%nat
  ∧ pendingAt ANALYTICS_INTERVAL (Fixtures.everyFetchTakes 70000) 30000 = 2%nat
  ∧ ¬ (∀ interval latency t,
         0 < interval → 0 ≤ t → (pendingAt interval latency t ≤ 1)%nat).
Proof.
  split_and!; [by vm_compute..|].
  intros H.
  specialize (H QUEUE_INTERVAL (Fixtures.everyFetchTakes 25000) 10000).
  assert (pendingAt QUEUE_INTERVAL (Fixtures.everyFetchTakes 25000) 10000
          = 2%nat) as E by (by vm_compute).
  rewrite E in H. unfold QUEUE_INTERVAL in H. lia.
Qed.

(** C7, as the code has it: when the queue fetch of a poll cycle fails,
    the handler still completes without throwing, the snapshot on screen is
    the one from before, and nothing records the failure: the queue screen
    ends in the state a successful fetch of the same snapshot leaves, its
    only change being that [loading] is off, and the dashboard's state does
    not change at all. *)
Theorem failed_fetch_keeps_snapshot_silently
    (s : QueuePage.State) (ds : DashboardPage.State)
    (d : QueueData) (message : string) :
  Async.completes (QueuePage.fetch_ (Async.Rejected message)) s
  ∧ QueuePage.queueData (QueuePage.afterFetch (Async.Rejected message) s)
    = QueuePage.queueData s
  ∧ QueuePage.afterFetch (Async.Rejected message) s
    = QueuePage.setLoading false s
  ∧ QueuePage.afterFetch (Async.Rejected message) (QueuePage.setQueueData d s)
    = QueuePage.afterFetch (Async.Fulfilled d) (QueuePage.setQueueData d s)
  ∧ DashboardPage.poll (Async.Rejected message) ds = ds.
Proof.
  split_and!; try done. by exists tt.
Qed.

(** C7 fails on the error flag: on the queue screen a failed fetch and a
    successful fetch of an unchanged snapshot end in the same state, so no
    reading of the state tells the consumer that the poll failed. *)
Lemma no_error_flag_counterexample :
  let d := Fixtures.snapshot [Fixtures.P85] in
  let s := QueuePage.afterFetch (Async.Fulfilled d) QueuePage.mount in
  QueuePage.afterFetch (Async.Rejected "API 503") s
  = QueuePage.afterFetch (Async.Fulfilled d) s
  ∧ ¬ ∃ flag : QueuePage.State → bool,
        flag (QueuePage.afterFetch (Async.Rejected "API 503") s) = true
        ∧ flag (QueuePage.afterFetch (Async.Fulfilled d) s) = false.
Proof.
  intros d s. split; [done|].
  intros [flag [Hfail Hok]].
  change (QueuePage.afterFetch (Async.Rejected "API 503") s)
    with (QueuePage.afterFetch (Async.Fulfilled d) s) in Hfail.
  congruence.
Qed.

End PollerFacts.

(** ** Strings and insertion-ordered maps *)

Section MapFacts.
Import Js.
Context {K V : Type} `{EqDecision K}.

Lemma keys_set (k : K) (v : V) m : keys (set k v m) = noteKey (keys m) k.
Proof.
  unfold keys, noteKey. induction m as [|[k' v'] m IH]; [done|].
  cbn [set]. rewrite (fmap_cons fst (k', v') m). cbn [fst].
  destruct (decide (k = k')) as [->|Hne].
  - rewrite fmap_cons. cbn [fst]. rewrite decide_True; [done|by left].
  - rewrite fmap_cons, IH. cbn [fst]. destruct (decide (k ∈ m.*1)) as [Hin|Hin].
    + rewrite decide_True; [done|by right].
    + rewrite decide_False; [done|].
      intros [?|?]%elem_of_cons; done.
Qed.

Lemma keys_foldl_set (es : list (K * V)) m :
  keys (foldl (λ m e, set e.1 e.2 m) m es) = foldl noteKey (keys m) es.*1.
Proof.
  revert m. induction es as [|[k v] es IH]; intros m; simpl; [done|].
  by rewrite IH, keys_set.
Qed.

(** The keys of [new Map(entries)] are the keys of the entries in the
    order of their first occurrence. *)
Lemma keys_newMap (es : list (K * V)) : keys (newMap es) = firstOccurrences es.*1.
Proof. unfold newMap, firstOccurrences. by rewrite keys_foldl_set. Qed.

Lemma elem_of_set (e : K * V) k v m : e ∈ set k v m → e ∈ m ∨ e = (k, v).
Proof.
  induction m as [|[k' v'] m IH]; simpl.
  - intros [->|[]%elem_of_nil]%elem_of_cons. by right.
  - destruct (decide (k = k')) as [->|Hne].
    + intros [->|He]%elem_of_cons; [by right|]. left. by right.
    + intros [->|He]%elem_of_cons; [left; by left|].
      destruct (IH He) as [?|?]; [|by right]. left. by right.
Qed.

Lemma elem_of_foldl_set (e : K * V) es m :
  e ∈ foldl (λ m e, set e.1 e.2 m) m es → e ∈ m ∨ e ∈ es.
Proof.
  revert m. induction es as [|[k v] es IH]; intros m; simpl; [by left|].
  intros [Hm|Hes]%IH.
  - apply elem_of_set in Hm as [?| ->]; [by left|]. right. by left.
  - right. by right.
Qed.

(** Every entry of [new Map(entries)] is one of the entries. *)
Lemma elem_of_newMap (e : K * V) es : e ∈ newMap es → e ∈ es.
Proof.
  intros [Hm|Hes]%elem_of_foldl_set; [|done]. by apply elem_of_nil in Hm.
Qed.

Lemma foldl_noteKey_NoDup (l acc : list K) :
  NoDup acc → NoDup (foldl noteKey acc l).
Proof.
  revert acc. induction l as [|k l IH]; intros acc Hacc; simpl; [done|].
  apply IH. unfold noteKey. case_decide; [done|].
  apply NoDup_app. split_and!; [done| |apply NoDup_singleton].
  intros x Hx ->%list_elem_of_singleton. done.
Qed.

Lemma elem_of_foldl_noteKey x (l acc : list K) :
  x ∈ foldl noteKey acc l ↔ x ∈ acc ∨ x ∈ l.
Proof.
  revert acc. induction l as [|k l IH]; intros acc; simpl.
  - split; [by left|]. by intros [?|?%elem_of_nil].
  - rewrite IH. unfold noteKey. case_decide as Hk.
    + rewrite elem_of_cons. split; [intros [?|?]; auto|].
      intros [?|[->|?]]; auto.
    + rewrite elem_of_app, list_elem_of_singleton, elem_of_cons. tauto.
Qed.

Lemma firstOccurrences_NoDup (l : list K) : NoDup (firstOccurrences l).
Proof. apply foldl_noteKey_NoDup, NoDup_nil_2. Qed.

Lemma elem_of_firstOccurrences x (l : list K) : x ∈ firstOccurrences l ↔ x ∈ l.
Proof.
  unfold firstOccurrences. rewrite elem_of_foldl_noteKey.
  split; [by intros [?%elem_of_nil|?]|by right].
Qed.

Lemma foldl_noteKey_app (l pre acc : list K) :
  foldl noteKey (pre ++ acc) l
  = pre ++ foldl noteKey acc (filter (λ k, k ∉ pre) l).
Proof.
  revert acc. induction l as [|k l IH]; intros acc; simpl; [done|].
  rewrite filter_cons. destruct (decide (k ∉ pre)) as [Hpre|Hpre]; simpl.
  - unfold noteKey at 2 4. destruct (decide (k ∈ acc)) as [Hacc|Hacc].
    + rewrite decide_True by (apply elem_of_app; by right). apply IH.
    + rewrite decide_False by (rewrite elem_of_app; tauto).
      rewrite <- app_assoc. apply IH.
  - apply dec_stable in Hpre. unfold noteKey at 2.
    rewrite decide_True by (apply elem_of_app; by left). apply IH.
Qed.

(** The defining equations of "order of first occurrence": the head comes
    first, and its later repetitions are passed over. *)
Lemma firstOccurrences_cons k (l : list K) :
  firstOccurrences (k :: l)
  = k :: firstOccurrences (filter (λ k', k' ≠ k) l).
Proof.
  unfold firstOccurrences. simpl. unfold noteKey at 2.
  rewrite decide_False by apply not_elem_of_nil. simpl.
  rewrite <- (app_nil_r [k]), foldl_noteKey_app. simpl. f_equal. f_equal.
  apply list_filter_iff. intros k'. rewrite list_elem_of_singleton. done.
Qed.

End MapFacts.

Section StringFacts.
Import Js.

Lemma trimEnd_idemp s : trimEnd (trimEnd s) = trimEnd s.
Proof.
  induction s as [|c s IH]; simpl; [done|].
  destruct (trimEnd s) as [|c' t] eqn:E.
  - destruct (isWhiteSpace c) eqn:Hc; simpl; [done|]. by rewrite Hc.
  - simpl in IH |- *. by rewrite IH.
Qed.

(** A string that does not begin with white space. *)
Lemma trimStart_fixed c s :
  isWhiteSpace c = false → trimStart (String c s) = String c s.
Proof. intros Hc. simpl. by rewrite Hc. Qed.

Lemma trimStart_head s :
  trimStart s = EmptyString
  ∨ ∃ c t, trimStart s = String c t ∧ isWhiteSpace c = false.
Proof.
  induction s as [|c s IH]; simpl; [by left|].
  destruct (isWhiteSpace c) eqn:Hc; [done|]. right. by exists c, s.
Qed.

Lemma trimEnd_head c s :
  trimEnd (String c s) = EmptyString ∨ ∃ t, trimEnd (String c s) = String c t.
Proof.
  simpl. destruct (trimEnd s); [destruct (isWhiteSpace c)|]; eauto.
Qed.

(** [trim] leaves a trimmed string as it is. *)
Lemma trim_idemp s : trim (trim s) = trim s.
Proof.
  unfold trim. destruct (trimStart_head s) as [->|(c & t & -> & Hc)]; [done|].
  destruct (trimEnd_head c t) as [->|[t' E]]; [done|].
  rewrite E, (trimStart_fixed _ _ Hc), <- E. apply trimEnd_idemp.
Qed.

(** The spelling kept for a symptom is that of its last occurrence, at the
    place of its first. *)
Example dedupedSymptoms_spelling :
  AddPatientForm.dedupedSymptoms
    (AddPatientForm.parseSymptoms "fever, cough, FEVER, Cough ,x, ")
  = ["FEVER"; "Cough"; "x"].
Proof. reflexivity. Qed.

End StringFacts.

(** ** Remote gateway *)

Section GatewayFacts.
Import Gateway.

(** A typed failure of the gateway always carries a message: the detail of
    the response body, or ["API <status>"]. *)
Lemma errorMessage_nonempty d status : errorMessage d status ≠ EmptyString.
Proof.
  unfold errorMessage, orElse. case_decide; [|done]. discriminate.
Qed.

Lemma orElse_nonempty a b : a ≠ EmptyString → orElse a b = a.
Proof. intros Ha. unfold orElse. by case_decide. Qed.

End GatewayFacts.

(** ** Submission orchestrator *)

Section SubmitFacts.
Import AddPatientForm.

Variable Number : string → Js.number.

Lemma checkRanges_pure {σ} items (w : σ) :
  checkRanges items w = ((checkRanges items tt).1, w).
Proof.
  induction items as [|[limits value] items IH]; simpl; [done|].
  by destruct (_ || _).
Qed.

Lemma buildPayload_pure {σ} f (w : σ) :
  buildPayload Number f w = (payloadOf Number f, w).
Proof.
  unfold payloadOf, buildPayload, mbind, M_bind, Async.bind, mret, M_ret.
  destruct (forallb _ _); [|done].
  cbv beta iota delta [Async.ret Async.throw].
  rewrite (checkRanges_pure _ w), (checkRanges_pure _ tt).
  destruct (checkRanges _ tt).1 as [e|[]]; [done|].
  by destruct (12 <? _)%nat.
Qed.

(** A form that does not validate: nothing is sent. *)
Lemma submit_invalid b w message :
  payloadOf Number (form (view w)) = inl message →
  submit Number b w
  = (inr tt,
     {| view := {| form := form (view w); loading := false; result := None;
                   error := Some (orElse message "Failed to submit triage.");
                   v_nextMove := None; v_recommendations := [] |};
        calls := calls w; frames := frames w; app := app w |}).
Proof.
  intros Hp. unfold submit, mbind, M_bind, Async.bind, Async.tryCatch. simpl.
  rewrite buildPayload_pure. simpl. by rewrite Hp.
Qed.

(** The primary call fails. *)
Lemma submit_primary_failed b w payload message :
  payloadOf Number (form (view w)) = inr payload →
  triage b payload = Async.Rejected message →
  submit Number b w
  = (inr tt,
     {| view := {| form := form (view w); loading := false; result := None;
                   error := Some (orElse message "Failed to submit triage.");
                   v_nextMove := None; v_recommendations := [] |};
        calls := calls w ++ [CallTriage payload];
        frames := frames w ++ [resetView w];
        app := app w |}).
Proof.
  intros Hp Ht. unfold submit, mbind, M_bind, Async.bind, Async.tryCatch. simpl.
  rewrite buildPayload_pure. simpl. rewrite Hp. simpl. by rewrite Ht.
Qed.

(** The primary call succeeds. *)
Lemma submit_primary_ok b w payload data :
  payloadOf Number (form (view w)) = inr payload →
  triage b payload = Async.Fulfilled data →
  submit Number b w
  = (inr tt,
     {| view :=
          {| form := form (view w); loading := false; result := Some data;
             error := None;
             v_nextMove :=
               match nextMove b (p_patient_id payload) with
               | Async.Fulfilled n => Some n
               | Async.Rejected _ => None
               end;
             v_recommendations :=
               match recommendations b (p_patient_id payload) with
               | Async.Fulfilled r => default [] (rec_recommendations r)
               | Async.Rejected _ => []
               end |};
        calls := calls w ++ [CallTriage payload;
                             CallNextMove (p_patient_id payload);
                             CallRecommendations (p_patient_id payload)];
        frames := frames w ++ [resetView w;
                               {| form := form (view w); loading := true;
                                  result := Some data; error := None;
                                  v_nextMove := None;
                                  v_recommendations := [] |}];
        app := app w |}).
Proof.
  intros Hp Ht. unfold submit, mbind, M_bind, Async.bind, Async.tryCatch. simpl.
  rewrite buildPayload_pure. simpl. rewrite Hp. simpl. rewrite Ht. simpl.
  rewrite <- !app_assoc. simpl.
  by destruct (nextMove b _), (recommendations b _).
Qed.

Lemma sent_app b w (cs : list Call) :
  calls (afterSubmit Number b w) = calls w ++ cs → sent Number b w = cs.
Proof. intros H. unfold sent. rewrite H. apply drop_app_length. Qed.

(** [submit] has no path to the parent's state. *)
Lemma submit_keeps_app b w : app (afterSubmit Number b w) = app w.
Proof.
  unfold afterSubmit.
  destruct (payloadOf Number (form (view w))) as [message|payload] eqn:Hp.
  - by rewrite (submit_invalid _ _ _ Hp).
  - destruct (triage b payload) as [data|message] eqn:Ht.
    + by rewrite (submit_primary_ok _ _ _ _ Hp Ht).
    + by rewrite (submit_primary_failed _ _ _ _ Hp Ht).
Qed.

(** C3: when the form validates and the triage-submit call fails, the
    handler completes, the only request of the submission is that call (no
    prediction and no recommendation request is issued), no result is shown,
    and the failure's message is put on screen; the fixed text
    ["Failed to submit triage."] stands in only for an empty message, which
    a typed gateway failure never has. *)
Theorem primary_failure_stops_submission
    (b : Backend) (w : World) (payload : Payload) (message : string) :
  payloadOf Number (form (view w)) = inr payload →
  triage b payload = Async.Rejected message →
  let w' := afterSubmit Number b w in
  Async.completes (submit Number b) w
  ∧ sent Number b w = [CallTriage payload]
  ∧ (∀ id, (CallNextMove id ∉ sent Number b w)
           ∧ (CallRecommendations id ∉ sent Number b w))
  ∧ errorBanner (view w') = Some (orElse message "Failed to submit triage.")
  ∧ (message ≠ EmptyString → errorBanner (view w') = Some message)
  ∧ (∀ d status, message = Gateway.errorMessage d status →
                 errorBanner (view w') = Some message)
  ∧ result (view w') = None
  ∧ loading (view w') = false.
Proof.
  intros Hp Ht w'. unfold w', afterSubmit, Async.completes.
  assert (sent Number b w = [CallTriage payload]) as Hsent.
  { apply sent_app. unfold afterSubmit.
    by rewrite (submit_primary_failed _ _ _ _ Hp Ht). }
  rewrite Hsent, (submit_primary_failed _ _ _ _ Hp Ht). simpl.
  assert (message ≠ EmptyString →
          errorBanner
            {| form := form (view w); loading := false; result := None;
               error := Some (orElse message "Failed to submit triage.");
               v_nextMove := None; v_recommendations := [] |}
          = Some message) as Hmsg.
  { intros Hm. unfold errorBanner, orElse. simpl.
    rewrite (orElse_nonempty _ _ Hm). by case_decide. }
  split_and!; try done.
  - by exists tt.
  - intros id. split; intros [E|[]%elem_of_nil]%elem_of_cons; discriminate E.
  - unfold errorBanner, orElse, Gateway.orElse. simpl.
    repeat case_decide; done.
  - intros d status ->. apply Hmsg, errorMessage_nonempty.
Qed.

(** C4: when the triage-submit call succeeds, both secondary requests are
    issued and the handler completes without an error on screen; the result
    card shows the risk, category and confidence of the primary result, the
    same as on the screen drawn while the secondary calls were pending; a
    failed prediction call leaves the prediction [null], a failed
    recommendations call leaves the list empty, and with both failed the
    prediction section is not drawn. *)
Theorem secondary_failure_degrades_section
    (b : Backend) (w : World) (payload : Payload) (data : TriageResult) :
  payloadOf Number (form (view w)) = inr payload →
  triage b payload = Async.Fulfilled data →
  let id := p_patient_id payload in
  let w' := afterSubmit Number b w in
  let card := {| cardCategory := r_triage_category data;
                 cardRisk := pretty (r_risk_score data) +:+ " / 100";
                 cardConfidence := r_confidence data |} in
  Async.completes (submit Number b) w
  ∧ sent Number b w
    = [CallTriage payload; CallNextMove id; CallRecommendations id]
  ∧ result (view w') = Some data
  ∧ resultCard (view w') = Some card
  ∧ (∃ pending, last (frames w') = Some pending
                ∧ resultCard pending = Some card)
  ∧ error (view w') = None
  ∧ loading (view w') = false
  ∧ (∀ m, nextMove b id = Async.Rejected m → v_nextMove (view w') = None)
  ∧ (∀ m, recommendations b id = Async.Rejected m →
          v_recommendations (view w') = [])
  ∧ (∀ m1 m2, nextMove b id = Async.Rejected m1 →
              recommendations b id = Async.Rejected m2 →
              predictionSection (view w') = false).
Proof.
  intros Hp Ht id w' card. unfold w', afterSubmit, Async.completes.
  assert (sent Number b w
          = [CallTriage payload; CallNextMove id; CallRecommendations id])
    as Hsent.
  { apply sent_app. unfold afterSubmit.
    by rewrite (submit_primary_ok _ _ _ _ Hp Ht). }
  rewrite Hsent, (submit_primary_ok _ _ _ _ Hp Ht). simpl.
  split_and!; try done.
  - by exists tt.
  - eexists. split.
    + rewrite (cons_middle (resetView w)), app_assoc. apply last_snoc.
    + done.
  - intros m Hn. fold id. by rewrite Hn.
  - intros m Hr. fold id. by rewrite Hr.
  - intros m1 m2 Hn Hr. unfold predictionSection. simpl. fold id.
    by rewrite Hn, Hr.
Qed.

(** C5, as the code has it: a successful submission in re-triage mode
    leaves the retriage intent set; the form stays in re-triage mode and
    draws its confirmation.  The intent goes away only through the Cancel
    Re-triage button. *)
Theorem retriage_intent_survives_submission
    (b : Backend) (w : World) (p : Patient)
    (payload : Payload) (data : TriageResult) :
  App.retriagePatient (app w) = Some p →
  payloadOf Number (form (view w)) = inr payload →
  triage b payload = Async.Fulfilled data →
  let w' := afterSubmit Number b w in
  result (view w') = Some data
  ∧ App.retriagePatient (app w') = Some p
  ∧ retriageRecorded w' = true
  ∧ App.retriagePatient (app (cancelRetriage w')) = None.
Proof.
  intros Hintent Hp Ht w'.
  assert (result (view w') = Some data) as Hres.
  { unfold w', afterSubmit. by rewrite (submit_primary_ok _ _ _ _ Hp Ht). }
  assert (App.retriagePatient (app w') = Some p) as Happ.
  { unfold w'. by rewrite submit_keeps_app. }
  split_and!; [done|done| |done].
  unfold retriageRecorded, App.isRetriage. by rewrite Hres, Happ.
Qed.

End SubmitFacts.

Lemma primary_failure_stops_submission_witness :
  let w := Fixtures.freshWorld App.mount in
  let message :=
    Gateway.errorMessage (Gateway.DetailList ["age out of range"]) 422 in
  AddPatientForm.payloadOf Fixtures.Number
    (AddPatientForm.form (AddPatientForm.view w)) = inr Fixtures.samplePayload
  ∧ AddPatientForm.triage Fixtures.primaryDown Fixtures.samplePayload
    = Async.Rejected message
  ∧ AddPatientForm.sent Fixtures.Number Fixtures.primaryDown w
    = [AddPatientForm.CallTriage Fixtures.samplePayload].
Proof.
  intros w message.
  assert (AddPatientForm.payloadOf Fixtures.Number
            (AddPatientForm.form (AddPatientForm.view w))
          = inr Fixtures.samplePayload) as Hp by reflexivity.
  assert (AddPatientForm.triage Fixtures.primaryDown Fixtures.samplePayload
          = Async.Rejected message) as Ht by reflexivity.
  split_and!; [done|done|].
  exact (proj1 (proj2 (primary_failure_stops_submission Fixtures.Number
    Fixtures.primaryDown w Fixtures.samplePayload message Hp Ht))).
Defined.

Lemma secondary_failure_degrades_section_witness :
  let w := Fixtures.freshWorld App.mount in
  AddPatientForm.payloadOf Fixtures.Number
    (AddPatientForm.form (AddPatientForm.view w)) = inr Fixtures.samplePayload
  ∧ AddPatientForm.triage Fixtures.predictionDown Fixtures.samplePayload
    = Async.Fulfilled Fixtures.sampleResult
  ∧ AddPatientForm.nextMove Fixtures.predictionDown Fixtures.PAT
    = Async.Rejected "timeout"
  ∧ AddPatientForm.v_nextMove (AddPatientForm.view
      (AddPatientForm.afterSubmit Fixtures.Number Fixtures.predictionDown w))
    = None.
Proof.
  intros w.
  assert (AddPatientForm.payloadOf Fixtures.Number
            (AddPatientForm.form (AddPatientForm.view w))
          = inr Fixtures.samplePayload) as Hp by reflexivity.
  assert (AddPatientForm.triage Fixtures.predictionDown Fixtures.samplePayload
          = Async.Fulfilled Fixtures.sampleResult) as Ht by reflexivity.
  assert (AddPatientForm.nextMove Fixtures.predictionDown Fixtures.PAT
          = Async.Rejected "timeout") as Hn by reflexivity.
  split_and!; [done|done|done|].
  destruct (secondary_failure_degrades_section Fixtures.Number
    Fixtures.predictionDown w Fixtures.samplePayload Fixtures.sampleResult
    Hp Ht) as (_ & _ & _ & _ & _ & _ & _ & Hnone & _).
  exact (Hnone "timeout" Hn).
Defined.

Lemma retriage_intent_survives_submission_witness :
  let w := Fixtures.freshWorld Fixtures.retriaging in
  App.retriagePatient (AddPatientForm.app w) = Some Fixtures.P85
  ∧ AddPatientForm.payloadOf Fixtures.Number
      (AddPatientForm.form (AddPatientForm.view w)) = inr Fixtures.samplePayload
  ∧ AddPatientForm.triage Fixtures.healthy Fixtures.samplePayload
    = Async.Fulfilled Fixtures.sampleResult
  ∧ App.retriagePatient (AddPatientForm.app
      (AddPatientForm.afterSubmit Fixtures.Number Fixtures.healthy w))
    = Some Fixtures.P85.
Proof.
  intros w.
  assert (App.retriagePatient (AddPatientForm.app w) = Some Fixtures.P85)
    as Hi by reflexivity.
  assert (AddPatientForm.payloadOf Fixtures.Number
            (AddPatientForm.form (AddPatientForm.view w))
          = inr Fixtures.samplePayload) as Hp by reflexivity.
  assert (AddPatientForm.triage Fixtures.healthy Fixtures.samplePayload
          = Async.Fulfilled Fixtures.sampleResult) as Ht by reflexivity.
  split_and!; [done|done|done|].
  exact (proj1 (proj2 (retriage_intent_survives_submission Fixtures.Number
    Fixtures.healthy w Fixtures.P85 Fixtures.samplePayload
    Fixtures.sampleResult Hi Hp Ht))).
Defined.

(** C5 fails on a re-triage of the sample patient against a backend where
    every call succeeds: the submission goes through, and the retriage intent
    is still set afterwards. *)
Lemma retriage_intent_not_cleared_counterexample :
  let w := Fixtures.freshWorld Fixtures.retriaging in
  let w' := AddPatientForm.afterSubmit Fixtures.Number Fixtures.healthy w in
  AddPatientForm.result (AddPatientForm.view w') = Some Fixtures.sampleResult
  ∧ AddPatientForm.error (AddPatientForm.view w') = None
  ∧ App.retriagePatient (AddPatientForm.app w') = Some Fixtures.P85
  ∧ App.retriagePatient (AddPatientForm.app w') ≠ None
  ∧ App.isRetriage (AddPatientForm.app w') = true.
Proof. by split_and!. Qed.

(** ** Symptoms sent with a submission *)

Section SymptomFacts.
Import Js AddPatientForm.

Variable Number : string → number.

Lemma elem_of_parseSymptoms s text :
  s ∈ parseSymptoms text →
  s ≠ EmptyString ∧ ∃ piece, piece ∈ split "," text ∧ s = trim piece.
Proof.
  unfold parseSymptoms, filterBoolean.
  intros [Hs Hin]%list_elem_of_filter. split; [done|].
  apply list_elem_of_fmap in Hin as [piece [-> Hpiece]]. by exists piece.
Qed.

Lemma elem_of_dedupedSymptoms s symptoms :
  s ∈ dedupedSymptoms symptoms → s ∈ symptoms.
Proof.
  unfold dedupedSymptoms, values.
  intros [[k v] [-> He]]%list_elem_of_fmap.
  apply elem_of_newMap, list_elem_of_fmap in He as [s' [E Hs']].
  by injection E as _ ->.
Qed.

(** The lower-cased retained symptoms are the keys of the map. *)
Lemma dedupedSymptoms_keys symptoms :
  toLowerCase <$> dedupedSymptoms symptoms
  = firstOccurrences (toLowerCase <$> symptoms).
Proof.
  unfold dedupedSymptoms, values.
  set (es := (λ s, (toLowerCase s, s)) <$> symptoms).
  assert (toLowerCase <$> symptoms = es.*1) as ->.
  { unfold es. rewrite <- list_fmap_compose. by apply list_fmap_ext. }
  rewrite <- keys_newMap. unfold keys. rewrite <- list_fmap_compose.
  apply list_fmap_ext. intros i [k v] Hi. simpl.
  apply list_elem_of_lookup_2, elem_of_newMap in Hi.
  apply list_elem_of_fmap in Hi as [s [E _]]. by injection E as -> ->.
Qed.

Lemma payloadOf_symptoms f p :
  payloadOf Number f = inr p →
  p_symptoms p = dedupedSymptoms (parseSymptoms (f_symptoms f)).
Proof.
  unfold payloadOf, buildPayload, mbind, M_bind, Async.bind, mret, M_ret.
  destruct (forallb _ _); [|done].
  cbv beta iota delta [Async.ret Async.throw].
  rewrite (checkRanges_pure _ tt).
  destruct (checkRanges _ tt).1 as [e|[]]; [done|].
  destruct (12 <? _)%nat; [done|]. simpl. by intros [= <-].
Qed.

(** A triage request issued by a submission carries the payload the form
    validates to. *)
Lemma sent_triage b w p :
  CallTriage p ∈ sent Number b w →
  payloadOf Number (form (view w)) = inr p.
Proof.
  destruct (payloadOf Number (form (view w))) as [message|payload] eqn:Hp.
  - rewrite (sent_app Number b w []).
    + by intros ?%elem_of_nil.
    + unfold afterSubmit. rewrite (submit_invalid _ _ _ _ Hp). simpl.
      by rewrite app_nil_r.
  - destruct (triage b payload) as [data|message] eqn:Ht.
    + rewrite (sent_app Number b w
                 [CallTriage payload; CallNextMove (p_patient_id payload);
                  CallRecommendations (p_patient_id payload)]).
      * rewrite !elem_of_cons, elem_of_nil.
        intros [E|[E|[E|[]]]]; try discriminate E. by injection E as ->.
      * unfold afterSubmit. by rewrite (submit_primary_ok _ _ _ _ _ Hp Ht).
    + rewrite (sent_app Number b w [CallTriage payload]).
      * rewrite !elem_of_cons, elem_of_nil.
        intros [E|[]]. by injection E as ->.
      * unfold afterSubmit. by rewrite (submit_primary_failed _ _ _ _ _ Hp Ht).
Qed.

(** C10: the symptoms list of every triage request a submission issues is
    the deduplicated list of the form's comma-separated text: each retained
    entry is a trimmed, non-empty piece of the text; no two retained entries
    are equal ignoring case; every symptom typed is represented; and the
    retained entries stand in the order in which their lower-cased forms
    first occur in the text. *)
Theorem symptoms_sent_deduplicated
    (b : Backend) (w : World) (p : Payload) :
  CallTriage p ∈ sent Number b w →
  let text := f_symptoms (form (view w)) in
  let symptoms := parseSymptoms text in
  p_symptoms p = dedupedSymptoms symptoms
  ∧ (∀ s, s ∈ p_symptoms p →
          s ≠ EmptyString ∧ trim s = s
          ∧ ∃ piece, piece ∈ split "," text ∧ s = trim piece)
  ∧ NoDup (toLowerCase <$> p_symptoms p)
  ∧ (∀ s, s ∈ symptoms → toLowerCase s ∈ toLowerCase <$> p_symptoms p)
  ∧ toLowerCase <$> p_symptoms p = firstOccurrences (toLowerCase <$> symptoms).
Proof.
  intros Hsent%sent_triage%payloadOf_symptoms text symptoms.
  fold text in Hsent. fold symptoms in Hsent. rewrite Hsent.
  split_and!.
  - done.
  - intros s Hs%elem_of_dedupedSymptoms%elem_of_parseSymptoms.
    destruct Hs as [Hne (piece & Hpiece & ->)].
    split_and!; [done|apply trim_idemp|by exists piece].
  - rewrite dedupedSymptoms_keys. apply firstOccurrences_NoDup.
  - intros s Hs. rewrite dedupedSymptoms_keys, elem_of_firstOccurrences.
    by apply list_elem_of_fmap_2.
  - apply dedupedSymptoms_keys.
Qed.

End SymptomFacts.

Lemma symptoms_sent_deduplicated_witness :
  let w := Fixtures.freshWorld App.mount in
  AddPatientForm.CallTriage Fixtures.samplePayload
    ∈ AddPatientForm.sent Fixtures.Number Fixtures.healthy w
  ∧ AddPatientForm.p_symptoms Fixtures.samplePayload
    = AddPatientForm.dedupedSymptoms
        (AddPatientForm.parseSymptoms "chest pain, Dizziness , ,CHEST PAIN").
Proof.
  intros w.
  assert (AddPatientForm.CallTriage Fixtures.samplePayload
            ∈ AddPatientForm.sent Fixtures.Number Fixtures.healthy w) as Hsent
    by (vm_compute; by left).
  split; [done|].
  exact (proj1 (symptoms_sent_deduplicated Fixtures.Number Fixtures.healthy w
                  Fixtures.samplePayload Hsent)).
Defined.

(** * Further properties of the code *)

(** ** Insertion-ordered maps and symptom lists *)

Section MoreMapFacts.
Import Js.
Context {K V : Type} `{EqDecision K}.

Lemma set_fresh (k : K) (v : V) m : k ∉ keys m → set k v m = m ++ [(k, v)].
Proof.
  unfold keys. induction m as [|[k' v'] m IH]; [done|].
  rewrite fmap_cons, not_elem_of_cons. cbn [fst set]. intros [Hne Hin].
  rewrite decide_False by done. by rewrite IH.
Qed.

Lemma foldl_set_NoDup (es m : list (K * V)) :
  NoDup (keys (m ++ es)) → foldl (λ m e, set e.1 e.2 m) m es = m ++ es.
Proof.
  revert m. induction es as [|[k v] es IH]; intros m Hnd; simpl.
  - by rewrite app_nil_r.
  - rewrite set_fresh.
    + rewrite IH; rewrite <- app_assoc; done.
    + unfold keys in *. rewrite fmap_app, fmap_cons in Hnd.
      apply NoDup_app in Hnd as (_ & Hdis & _).
      intros Hin. apply (Hdis _ Hin). by left.
Qed.

(** Entries whose keys are already distinct go through [new Map] as they
    are. *)
Lemma newMap_NoDup (es : list (K * V)) : NoDup (keys es) → newMap es = es.
Proof. intros Hnd. unfold newMap. by rewrite foldl_set_NoDup. Qed.

Lemma keys_set_NoDup (k : K) (v : V) m :
  NoDup (keys m) → NoDup (keys (set k v m)).
Proof.
  intros Hnd. rewrite keys_set. unfold noteKey. case_decide; [done|].
  apply NoDup_app. split_and!; [done| |apply NoDup_singleton].
  by intros x Hx ->%list_elem_of_singleton.
Qed.

(** In a map with distinct keys, the entry under a key just set holds the
    value set. *)
Lemma elem_of_set_same (k : K) (v v0 : V) m :
  NoDup (keys m) → (k, v) ∈ set k v0 m → v = v0.
Proof.
  unfold keys. induction m as [|[k' v'] m IH]; cbn [set].
  - intros _ [E|[]%elem_of_nil]%elem_of_cons. by injection E.
  - rewrite fmap_cons. cbn [fst]. intros [Hk' Hnd]%NoDup_cons.
    destruct (decide (k = k')) as [->|Hne].
    + intros [E|Hin]%elem_of_cons; [by injection E|].
      destruct Hk'. apply list_elem_of_fmap. by exists (k', v).
    + intros [E|Hin]%elem_of_cons; [by injection E|]. by apply IH.
Qed.

Lemma foldl_set_last (e : K * V) (es m : list (K * V)) :
  NoDup (keys m) →
  e ∈ foldl (λ m e, set e.1 e.2 m) m es →
  (∃ es1 es2, es = es1 ++ e :: es2 ∧ e.1 ∉ keys es2)
  ∨ (e ∈ m ∧ e.1 ∉ keys es).
Proof.
  revert m. induction es as [|[k v] es IH]; intros m Hnd; simpl.
  - intros He. right. split; [done|]. apply not_elem_of_nil.
  - intros [(es1 & es2 & -> & Hlast)|[He Hlast]]%IH;
      [|clear IH|by apply keys_set_NoDup].
    + left. by exists ((k, v) :: es1), es2.
    + destruct e as [k0 v0]. cbn [fst snd] in *.
      destruct (decide (k0 = k)) as [->|Hne].
      * apply elem_of_set_same in He as ->; [|done].
        left. by exists [], es.
      * apply elem_of_set in He as [He|E]; [|by injection E].
        right. split; [done|]. apply not_elem_of_cons. by split.
Qed.

(** Every entry of [new Map(entries)] is the last of the entries with its
    key. *)
Lemma newMap_last (e : K * V) es :
  e ∈ newMap es → ∃ es1 es2, es = es1 ++ e :: es2 ∧ e.1 ∉ keys es2.
Proof.
  intros [?|[[]%elem_of_nil _]]%foldl_set_last; [done|apply NoDup_nil_2].
Qed.

Lemma foldl_noteKey_length (l acc : list K) :
  (length (foldl noteKey acc l) ≤ length acc + length l)%nat.
Proof.
  revert acc. induction l as [|k l IH]; intros acc; simpl; [lia|].
  etrans; [apply IH|]. unfold noteKey. case_decide; [lia|].
  rewrite length_app. simpl. lia.
Qed.

Lemma newMap_length (es : list (K * V)) :
  (length (newMap es) ≤ length es)%nat.
Proof.
  rewrite <- (length_fmap fst (newMap es)). fold (keys (newMap es)).
  rewrite keys_newMap. unfold firstOccurrences.
  etrans; [apply foldl_noteKey_length|]. by rewrite length_fmap.
Qed.

End MoreMapFacts.

(** ** Validation in [submit] *)

Section ValidationFacts.
Import Js AddPatientForm Validation.

Variable Number : string → number.

Lemma forallb_Forall {A} (f : A → bool) l :
  forallb f l = true ↔ Forall (λ x, f x = true) l.
Proof.
  induction l as [|x l IH]; simpl; [by split|].
  rewrite andb_true_iff, Forall_cons, IH. done.
Qed.

Lemma accepts_inRange limits value :
  accepts limits value ↔ isFinite value = true ∧ inRange limits value = true.
Proof.
  unfold accepts, inRange, gt, ofZ. split.
  - intros (q & -> & Hlo & Hhi). split; [done|]. simpl.
    apply Qle_bool_iff in Hlo, Hhi. by rewrite Hlo, Hhi.
  - intros [Hfin Hin]. destruct value as [| |q]; try done.
    exists q. split; [done|]. simpl in Hin.
    apply negb_true_iff, orb_false_iff in Hin as [Hlo Hhi].
    apply negb_false_iff, Qle_bool_iff in Hlo, Hhi. done.
Qed.

Lemma checkRanges_ok {σ} items (s : σ) :
  Forall (λ it, inRange it.1 it.2 = true) items →
  checkRanges items s = (inr tt, s).
Proof.
  induction 1 as [|[limits value] items Hin _ IH]; [done|].
  cbn [checkRanges]. unfold inRange in Hin. cbn [fst snd] in Hin.
  apply negb_true_iff in Hin. by rewrite Hin.
Qed.

Lemma checkRanges_first {σ} pre limits value rest (s : σ) :
  Forall (λ it, inRange it.1 it.2 = true) pre →
  inRange limits value = false →
  checkRanges (pre ++ (limits, value) :: rest) s
  = (inl (rangeMessage limits), s).
Proof.
  intros Hpre Hout.
  induction Hpre as [|[l v] pre Hin _ IH].
  - rewrite app_nil_l. cbn [checkRanges].
    unfold inRange in Hout. apply negb_false_iff in Hout. by rewrite Hout.
  - rewrite <- app_comm_cons. cbn [checkRanges].
    unfold inRange in Hin. cbn [fst snd] in Hin.
    apply negb_true_iff in Hin. by rewrite Hin.
Qed.

(** The loop either passes every entry or stops at the first one out of
    range. *)
Lemma checkRanges_cases items :
  Forall (λ it, inRange it.1 it.2 = true) items
  ∨ ∃ pre limits value rest,
      items = pre ++ (limits, value) :: rest
      ∧ Forall (λ it, inRange it.1 it.2 = true) pre
      ∧ inRange limits value = false.
Proof.
  induction items as [|[limits value] items IH]; [by left|].
  destruct (inRange limits value) eqn:Hin.
  - destruct IH as [Hall|(pre & l & v & rest & -> & Hpre & Hout)].
    + left. by constructor.
    + right. exists ((limits, value) :: pre), l, v, rest.
      split_and!; [done|by constructor|done].
  - right. by exists [], limits, value, items.
Qed.

(** [submit]'s checks, one after the other. *)
Lemma payloadOf_unfold f :
  payloadOf Number f
  = if forallb isFinite (rangeChecks Number f).*2 then
      match (checkRanges (rangeChecks Number f) tt).1 with
      | inl message => inl message
      | inr _ =>
          if (12 <? length (parseSymptoms (f_symptoms f)))%nat
          then inl SYMPTOMS_MESSAGE
          else inr (payloadFor Number f)
      end
    else inl FILL_MESSAGE.
Proof.
  unfold payloadOf, buildPayload, mbind, M_bind, Async.bind, mret, M_ret.
  change (forallb isFinite (rangeChecks Number f).*2)
    with (forallb isFinite
            [Number (f_age f); Number (f_heart_rate f);
             Number (f_systolic_bp f); Number (f_spo2 f);
             Number (f_temperature f)]).
  destruct (forallb _ _); [|done].
  cbv beta iota delta [Async.ret Async.throw].
  change [(LIMITS_age, Number (f_age f));
          (LIMITS_heart_rate, Number (f_heart_rate f));
          (LIMITS_systolic_bp, Number (f_systolic_bp f));
          (LIMITS_spo2, Number (f_spo2 f));
          (LIMITS_temperature, Number (f_temperature f))]
    with (rangeChecks Number f).
  rewrite (checkRanges_pure _ tt).
  destruct (checkRanges _ tt).1 as [e|[]]; [done|].
  by destruct (12 <? _)%nat.
Qed.

Lemma rangeMessage_nonempty limits : rangeMessage limits ≠ EmptyString.
Proof. unfold rangeMessage. by destruct (label limits). Qed.

(** X1: a form validates to a payload exactly when its five numbers are
    finite and inside [INPUT_LIMITS], bounds included, and it lists at most
    twelve symptoms; the payload is then the one [submit] builds from the
    converted numbers. *)
Theorem payload_iff_within_limits (f : Form) (p : Payload) :
  payloadOf Number f = inr p
  ↔ Forall (λ it, accepts it.1 it.2) (rangeChecks Number f)
    ∧ (length (parseSymptoms (f_symptoms f)) ≤ 12)%nat
    ∧ p = payloadFor Number f.
Proof.
  rewrite payloadOf_unfold. split.
  - destruct (forallb _ _) eqn:Hfin; [|done].
    destruct (checkRanges_cases (rangeChecks Number f))
      as [Hall|(pre & l & v & rest & E & Hpre & Hout)].
    + rewrite (checkRanges_ok _ tt Hall). cbn [fst].
      destruct (Nat.ltb_spec 12 (length (parseSymptoms (f_symptoms f))));
        [done|].
      intros [= <-]. split_and!; [|done|done].
      apply Forall_forall. intros it Hit. apply accepts_inRange. split.
      * apply forallb_Forall in Hfin.
        eapply (proj1 (Forall_forall _ _) Hfin), list_elem_of_fmap_2, Hit.
      * by apply (proj1 (Forall_forall _ _) Hall).
    + rewrite E, (checkRanges_first _ _ _ _ tt Hpre Hout). done.
  - intros (Hacc & Hlen & ->).
    assert (forallb isFinite (rangeChecks Number f).*2 = true) as ->.
    { apply forallb_Forall, Forall_fmap.
      eapply Forall_impl; [exact Hacc|].
      intros it Hit. simpl. by apply accepts_inRange in Hit as [? _]. }
    rewrite (checkRanges_ok _ tt).
    + cbn [fst]. destruct (Nat.ltb_spec 12 (length (parseSymptoms (f_symptoms f))));
        [lia|done].
    + eapply Forall_impl; [exact Hacc|].
      intros it Hit. by apply accepts_inRange.
Qed.

(** X2: when the five numbers are finite, the message of a failed range
    check names the first field that is out of range, in the order age, heart
    rate, systolic BP, SpO2, temperature, whatever the later fields hold. *)
Theorem first_range_violation_reported
    (f : Form) pre limits value rest :
  forallb isFinite (rangeChecks Number f).*2 = true →
  rangeChecks Number f = pre ++ (limits, value) :: rest →
  Forall (λ it, inRange it.1 it.2 = true) pre →
  inRange limits value = false →
  payloadOf Number f = inl (rangeMessage limits).
Proof.
  intros Hfin E Hpre Hout. rewrite payloadOf_unfold, Hfin, E.
  by rewrite (checkRanges_first _ _ _ _ tt Hpre Hout).
Qed.

(** Every message of the validation is one of seven fixed texts. *)
Lemma validation_messages f message :
  payloadOf Number f = inl message →
  message = FILL_MESSAGE ∨ message = SYMPTOMS_MESSAGE
  ∨ ∃ limits, limits ∈ (rangeChecks Number f).*1
              ∧ message = rangeMessage limits.
Proof.
  rewrite payloadOf_unfold.
  destruct (forallb _ _); [|intros [= <-]; by left].
  destruct (checkRanges_cases (rangeChecks Number f))
    as [Hall|(pre & l & v & rest & E & Hpre & Hout)].
  - rewrite (checkRanges_ok _ tt Hall). cbn [fst].
    destruct (12 <? _)%nat; [|done]. intros [= <-]. right. by left.
  - rewrite E at 1. rewrite (checkRanges_first _ _ _ _ tt Hpre Hout).
    intros [= <-]. right. right. exists l. split; [|done].
    rewrite E, fmap_app, fmap_cons. apply elem_of_app. right. by left.
Qed.

(** X3: a form that does not validate sends no request at all; the
    handler completes with no result, the spinner off, and the validation
    message, which is never empty, in the banner. *)
Theorem invalid_form_sends_nothing
    (b : Backend) (w : World) (message : string) :
  payloadOf Number (form (view w)) = inl message →
  let w' := afterSubmit Number b w in
  Async.completes (submit Number b) w
  ∧ sent Number b w = []
  ∧ calls w' = calls w
  ∧ errorBanner (view w') = Some message
  ∧ result (view w') = None
  ∧ loading (view w') = false
  ∧ app w' = app w.
Proof.
  intros Hp w'. unfold w', afterSubmit, Async.completes.
  assert (message ≠ EmptyString) as Hne.
  { destruct (validation_messages _ _ Hp) as [->|[->|(l & _ & ->)]];
      [done|done|apply rangeMessage_nonempty]. }
  assert (sent Number b w = []) as Hsent.
  { apply sent_app. unfold afterSubmit.
    rewrite (submit_invalid _ _ _ _ Hp). simpl. by rewrite app_nil_r. }
  rewrite Hsent, (submit_invalid _ _ _ _ Hp). simpl.
  split_and!; try done; [by exists tt|].
  unfold errorBanner. simpl. rewrite (orElse_nonempty _ _ Hne).
  by case_decide.
Qed.

End ValidationFacts.

Lemma first_range_violation_reported_witness :
  AddPatientForm.payloadOf Fixtures.Number Samples.outOfRangeForm
  = inl "Age must be between 0 and 120.".
Proof.
  apply (first_range_violation_reported Fixtures.Number
           Samples.outOfRangeForm [] AddPatientForm.LIMITS_age
           (Fixtures.Number "130")
           (tail (Validation.rangeChecks Fixtures.Number Samples.outOfRangeForm)));
    [reflexivity|reflexivity|constructor|reflexivity].
Defined.

Lemma invalid_form_sends_nothing_witness :
  AddPatientForm.payloadOf Fixtures.Number
    (AddPatientForm.form (AddPatientForm.view Samples.outOfRangeWorld))
  = inl "Age must be between 0 and 120."
  ∧ AddPatientForm.sent Fixtures.Number Fixtures.healthy
      Samples.outOfRangeWorld = [].
Proof.
  assert (AddPatientForm.payloadOf Fixtures.Number
            (AddPatientForm.form (AddPatientForm.view Samples.outOfRangeWorld))
          = inl "Age must be between 0 and 120.") as Hp by reflexivity.
  split; [done|].
  exact (proj1 (proj2 (invalid_form_sends_nothing Fixtures.Number
    Fixtures.healthy Samples.outOfRangeWorld _ Hp))).
Defined.

(** ** Symptom lists *)

Section MoreSymptomFacts.
Import Js AddPatientForm Validation.

Lemma dedupedSymptoms_NoDup symptoms :
  NoDup (toLowerCase <$> dedupedSymptoms symptoms).
Proof. rewrite dedupedSymptoms_keys. apply firstOccurrences_NoDup. Qed.

Lemma symptom_entries_keys (symptoms : list string) :
  keys ((λ s, (toLowerCase s, s)) <$> symptoms) = toLowerCase <$> symptoms.
Proof. unfold keys. rewrite <- list_fmap_compose. by apply list_fmap_ext. Qed.

Lemma symptom_entries_values (symptoms : list string) :
  values ((λ s, (toLowerCase s, s)) <$> symptoms) = symptoms.
Proof.
  unfold values. rewrite <- list_fmap_compose.
  rewrite <- (list_fmap_id symptoms) at 2. by apply list_fmap_ext.
Qed.

Lemma dedupedSymptoms_fixed (symptoms : list string) :
  NoDup (toLowerCase <$> symptoms) → dedupedSymptoms symptoms = symptoms.
Proof.
  intros Hnd. unfold dedupedSymptoms.
  rewrite newMap_NoDup by (by rewrite symptom_entries_keys).
  apply symptom_entries_values.
Qed.

(** X4: a symptom list in which no two entries are equal ignoring case
    goes into the payload exactly as it is: same entries, same spelling, same
    order, same length. *)
Theorem dedupedSymptoms_distinct_unchanged (symptoms : list string) :
  NoDup (toLowerCase <$> symptoms) →
  dedupedSymptoms symptoms = symptoms
  ∧ length (dedupedSymptoms symptoms) = length symptoms.
Proof. intros Hnd. by rewrite dedupedSymptoms_fixed. Qed.

(** X5: deduplicating never lengthens the list, and deduplicating a second
    time changes nothing. *)
Theorem dedupedSymptoms_idempotent (symptoms : list string) :
  (length (dedupedSymptoms symptoms) ≤ length symptoms)%nat
  ∧ dedupedSymptoms (dedupedSymptoms symptoms) = dedupedSymptoms symptoms.
Proof.
  split.
  - unfold dedupedSymptoms, values. rewrite length_fmap.
    etrans; [apply newMap_length|]. by rewrite length_fmap.
  - apply dedupedSymptoms_fixed, dedupedSymptoms_NoDup.
Qed.

(** The place of the last entry with a given key is unique. *)
Lemma last_occurrence_unique {A B} (key : A → B)
    (l1 l1' l2 l2' : list A) (x x' : A) :
  l1 ++ x :: l2 = l1' ++ x' :: l2' →
  key x = key x' → key x ∉ key <$> l2 → key x ∉ key <$> l2' → x = x'.
Proof.
  revert l1'. induction l1 as [|a l1 IH]; intros [|a' l1'] E Hk H2 H2'.
  - by injection E.
  - injection E as -> ->. destruct H2. rewrite fmap_app, fmap_cons, Hk.
    apply elem_of_app. right. by left.
  - injection E as -> <-. destruct H2'. rewrite fmap_app, fmap_cons.
    apply elem_of_app. right. by left.
  - injection E as -> E. by eapply IH.
Qed.

(** X6: the payload keeps, for each symptom, the spelling typed last: an
    entry is retained exactly when no later entry of the list equals it
    ignoring case. *)
Theorem dedupedSymptoms_keeps_last_spelling (symptoms : list string) (s : string) :
  s ∈ dedupedSymptoms symptoms
  ↔ ∃ l1 l2, symptoms = l1 ++ s :: l2
             ∧ toLowerCase s ∉ toLowerCase <$> l2.
Proof.
  assert (∀ s', s' ∈ dedupedSymptoms symptoms →
                ∃ l1 l2, symptoms = l1 ++ s' :: l2
                         ∧ toLowerCase s' ∉ toLowerCase <$> l2) as Hlast.
  { intros s'. unfold dedupedSymptoms, values.
    intros [[k v] [-> He]]%list_elem_of_fmap.
    pose proof (elem_of_newMap _ _ He) as Hin.
    apply list_elem_of_fmap in Hin as [s0 [[= -> ->] _]].
    apply newMap_last in He as (es1 & es2 & E & Hk).
    apply fmap_app_inv in E as (l1 & l2' & -> & E & ->).
    symmetry in E.
    apply fmap_cons_inv in E as (s1 & l2 & [= _ <-] & -> & ->).
    exists l1, l2. split; [done|].
    by rewrite symptom_entries_keys in Hk. }
  split; [apply Hlast|].
  intros (l1 & l2 & E & Hk).
  assert (toLowerCase s ∈ toLowerCase <$> dedupedSymptoms symptoms) as Hin.
  { rewrite dedupedSymptoms_keys, elem_of_firstOccurrences, E.
    apply list_elem_of_fmap_2, elem_of_app. right. by left. }
  apply list_elem_of_fmap in Hin as (s' & Hs' & Hin).
  destruct (Hlast _ Hin) as (l1' & l2' & E' & Hk').
  rewrite E in E'.
  rewrite (last_occurrence_unique toLowerCase _ _ _ _ _ _ E' Hs' Hk);
    [done|by rewrite Hs'].
Qed.

End MoreSymptomFacts.

Lemma dedupedSymptoms_distinct_unchanged_witness :
  NoDup (Js.toLowerCase <$> ["chest pain"; "Dizziness"; "fever"])
  ∧ AddPatientForm.dedupedSymptoms ["chest pain"; "Dizziness"; "fever"]
    = ["chest pain"; "Dizziness"; "fever"].
Proof.
  assert (NoDup (Js.toLowerCase <$> ["chest pain"; "Dizziness"; "fever"]))
    as Hnd by (apply (@bool_decide_unpack _ (NoDup_dec _)); by vm_compute).
  split; [done|].
  exact (proj1 (dedupedSymptoms_distinct_unchanged _ Hnd)).
Defined.

(** ** Trimming and splitting *)

Section MoreStringFacts.
Import Js AddPatientForm Validation.

Lemma trimStart_empty s : trimStart s = EmptyString ↔ allWhiteSpace s = true.
Proof.
  induction s as [|c s IH]; simpl; [done|].
  destruct (isWhiteSpace c); simpl; [done|]. split; discriminate.
Qed.

Lemma trimEnd_lastChar s c :
  lastChar (trimEnd s) = Some c → isWhiteSpace c = false.
Proof.
  induction s as [|a s IH]; simpl; [done|].
  destruct (trimEnd s) as [|b t] eqn:E.
  - destruct (isWhiteSpace a) eqn:Ha; simpl; [done|]. by intros [= <-].
  - simpl in *. exact IH.
Qed.

Lemma trimEnd_nonempty c s :
  isWhiteSpace c = false → trimEnd (String c s) ≠ EmptyString.
Proof.
  intros Hc. simpl. destruct (trimEnd s); [by rewrite Hc|done].
Qed.

(** X7: [trim] leaves no white space at either end of its result, and its
    result is empty exactly when the text holds white space only; such a
    piece, and only such a piece, is dropped from the symptoms. *)
Theorem trim_strips_both_ends (s : string) :
  (∀ c, firstChar (trim s) = Some c → isWhiteSpace c = false)
  ∧ (∀ c, lastChar (trim s) = Some c → isWhiteSpace c = false)
  ∧ (trim s = EmptyString ↔ allWhiteSpace s = true)
  ∧ (filterBoolean [trim s] = [] ↔ allWhiteSpace s = true).
Proof.
  assert (trim s = EmptyString ↔ allWhiteSpace s = true) as Hempty.
  { rewrite <- trimStart_empty. unfold trim.
    destruct (trimStart_head s) as [->|(c & t & -> & Hc)]; [done|].
    split; [|discriminate]. intros E. by apply trimEnd_nonempty in E. }
  split_and!; [| |done|].
  - unfold trim. intros c.
    destruct (trimStart_head s) as [->|(a & t & -> & Ha)]; [done|].
    destruct (trimEnd_head a t) as [->|[t' ->]]; [done|].
    by intros [= <-].
  - intros c. apply trimEnd_lastChar.
  - rewrite <- Hempty. unfold filterBoolean. rewrite filter_cons, filter_nil.
    case_decide as Hne; [split; [discriminate|done]|done].
Qed.

Lemma split_no_sep sep s : hasChar sep s = false → split sep s = [s].
Proof.
  induction s as [|c s IH]; simpl; [done|].
  intros [Hc Hs]%orb_false_iff. apply bool_decide_eq_false in Hc.
  rewrite decide_False by done. by rewrite IH.
Qed.

Lemma split_app_sep sep s t :
  hasChar sep s = false →
  split sep (s +:+ String sep t) = s :: split sep t.
Proof.
  induction s as [|c s IH]; simpl.
  - intros _. by rewrite decide_True.
  - intros [Hc Hs]%orb_false_iff. apply bool_decide_eq_false in Hc.
    rewrite decide_False by done. by rewrite IH.
Qed.

Lemma split_nonempty sep s : split sep s ≠ [].
Proof.
  destruct s as [|c s]; simpl; [done|].
  case_decide; [done|]. by destruct (split sep s).
Qed.

Lemma trim_split_space t :
  trim <$> split "," (String " " t) = trim <$> split "," t.
Proof.
  cbn [split]. rewrite decide_False by done.
  destruct (split "," t) as [|w ws] eqn:E; [by apply split_nonempty in E|].
  done.
Qed.

(** X8: the text a re-triage puts into the symptoms box reads back as the
    record's list: joining entries with a comma and a space and parsing the
    text again returns the entries, provided each is non-empty, already
    trimmed and free of commas. *)
Theorem symptomsText_round_trip (symptoms : list string) :
  Forall (λ x, x ≠ EmptyString ∧ trim x = x ∧ hasChar "," x = false)
    symptoms →
  parseSymptoms (symptomsText symptoms) = symptoms.
Proof.
  unfold symptomsText, parseSymptoms, filterBoolean.
  induction 1 as [|x l (Hne & Htrim & Hcomma) Hl IH]; [done|].
  destruct l as [|y l].
  - cbn [Gateway.join]. rewrite (split_no_sep _ _ Hcomma).
    rewrite fmap_cons, Htrim, filter_cons_True by done. done.
  - change (Gateway.join ", " (x :: y :: l))
      with (x +:+ String "," (String " " (Gateway.join ", " (y :: l)))).
    rewrite (split_app_sep _ _ _ Hcomma), fmap_cons, trim_split_space.
    rewrite Htrim, filter_cons_True by done. by rewrite IH.
Qed.

End MoreStringFacts.

Lemma symptomsText_round_trip_witness :
  Validation.symptomsText ["chest pain"; "Dizziness"] = "chest pain, Dizziness"
  ∧ AddPatientForm.parseSymptoms "chest pain, Dizziness"
    = ["chest pain"; "Dizziness"].
Proof.
  split; [reflexivity|].
  apply (symptomsText_round_trip ["chest pain"; "Dizziness"]).
  repeat constructor; discriminate.
Defined.

(** ** The gateway's [request] *)

Section RequestFacts.
Import Gateway Request.

Lemma filter_truthy_all_empty msgs :
  Forall (λ x, x = EmptyString) msgs → filter truthy msgs = [].
Proof.
  induction 1 as [|x msgs -> _ IH]; [done|].
  rewrite filter_cons_False; [done|]. unfold truthy. by intros ?.
Qed.

(** X9: a non-2xx response always rejects with a message that is not
    empty: a non-empty string [detail] verbatim; otherwise ["API <status>"]
    when the body is not JSON or when a [detail] list carries no message at
    all. *)
Theorem request_http_error_message {P : Type}
    (empty : P) (detailOf : P → Detail) (response : Response P) :
  ok response = false →
  ∃ message,
    request empty detailOf (Async.Fulfilled response) = Async.Rejected message
    ∧ message ≠ EmptyString
    ∧ (∀ p s, json response = Some p → detailOf p = DetailString s →
              s ≠ EmptyString → message = s)
    ∧ (∀ p msgs, json response = Some p → detailOf p = DetailList msgs →
                 Forall (λ x, x = EmptyString) msgs →
                 message = "API " +:+ pretty (status response))
    ∧ (json response = None → message = "API " +:+ pretty (status response)).
Proof.
  intros Hok. unfold request. rewrite Hok. eexists. split; [done|].
  split_and!.
  - apply errorMessage_nonempty.
  - intros p s -> -> Hs. unfold errorMessage. simpl.
    by apply orElse_nonempty.
  - intros p msgs -> -> Hmsgs. unfold errorMessage. simpl.
    by rewrite (filter_truthy_all_empty _ Hmsgs).
  - by intros ->.
Qed.

End RequestFacts.

Lemma request_http_error_message_witness :
  Request.ok Samples.rejected422 = false
  ∧ ∃ message,
      Request.request Gateway.DetailOther id
        (Async.Fulfilled Samples.rejected422) = Async.Rejected message
      ∧ message ≠ EmptyString.
Proof.
  assert (Request.ok Samples.rejected422 = false) as Hok by reflexivity.
  split; [done|].
  destruct (request_http_error_message Gateway.DetailOther id
              Samples.rejected422 Hok) as (message & E & Hne & _).
  by exists message.
Defined.

(** The sample 422 answer surfaces its one validation message. *)
Example request_rejected422 :
  Request.request Gateway.DetailOther id (Async.Fulfilled Samples.rejected422)
  = Async.Rejected "age out of range".
Proof. reflexivity. Qed.

(** ** Alert rows *)

Section MoreAlertFacts.
Import Alerts Cards.

(** X10: the rows drawn are at most five, each an undismissed critical
    patient of the snapshot on screen; when the panel is open, the rows and
    the "+N more alerts" line together account for every active alert
    counted in the badge. *)
Theorem rendered_alerts_sound (s : State) :
  (length (rendered s) ≤ 5)%nat
  ∧ (length (rendered s) ≤ badge s)%nat
  ∧ (∀ p, p ∈ rendered s →
          p ∈ shown s ∧ isCritical p = true ∧ patient_id p ∉ dismissed s)
  ∧ (expanded s = true →
     (length (rendered s) + default 0 (moreAlerts s))%nat = badge s).
Proof.
  unfold rendered, badge, moreAlerts.
  set (c := critical (dismissed s) (shown s)).
  split_and!.
  - destruct (expanded s); [rewrite length_take; lia|simpl; lia].
  - destruct (expanded s); [rewrite length_take; lia|simpl; lia].
  - intros p Hp.
    assert (p ∈ c) as Hc.
    { destruct (expanded s); [by eapply subseteq_take|by apply elem_of_nil in Hp]. }
    unfold c, critical, criticalSubset in Hc.
    apply list_elem_of_filter in Hc as [Hd Hc].
    apply list_elem_of_filter in Hc as [Hc Hin]. done.
  - intros ->. rewrite length_take. cbv zeta. fold c. cbn [andb].
    destruct (Nat.ltb_spec 5 (length c)); unfold default;
      cbn [from_option]; unfold id; lia.
Qed.

(** X11: pressing Dismiss on a drawn row removes the alerts of that
    patient id and of no other: the active alerts afterwards are the ones
    before, without that id, in the same order; the snapshot and the panel
    stay as they are. *)
Theorem dismiss_hides_only_that_patient (s : State) (id : string) :
  alertRendered id s →
  let s' := step s (Dismiss id) in
  critical (dismissed s') (shown s')
  = filter (λ p, patient_id p ≠ id) (critical (dismissed s) (shown s))
  ∧ shown s' = shown s
  ∧ expanded s' = expanded s.
Proof.
  intros Hr s'. unfold s'. simpl.
  rewrite bool_decide_eq_true_2 by exact Hr. simpl. split; [|done].
  unfold critical, dismiss. rewrite list_filter_filter.
  apply list_filter_iff. intros p.
  rewrite not_elem_of_union, not_elem_of_singleton. tauto.
Qed.

(** X12: among the patients that raise an alert, the lowest tier (the
    yellow "ALERT" row) is exactly the one for a risk score below 60, and
    such a patient is on the list only because its category is RED or
    ORANGE. *)
Theorem lowest_tier_only_by_category (p : Patient) :
  isCritical p = true →
  (tier p = ALERT ↔ risk_score p < 60)
  ∧ (getColor p = "#eab308" ↔ tier p = ALERT)
  ∧ (tier p = ALERT → triage p = "RED" ∨ triage p = "ORANGE").
Proof.
  unfold isCritical, tier, getColor. intros Hc.
  destruct (Z.leb_spec 80 (risk_score p)), (Z.leb_spec 60 (risk_score p));
    split_and!; try (split; (done || lia)); try done; try lia.
  intros _. rewrite orb_false_r in Hc.
  apply orb_true_iff in Hc as [Hc|Hc]; apply bool_decide_eq_true in Hc; auto.
Qed.

End MoreAlertFacts.

Lemma dismiss_hides_only_that_patient_witness :
  Alerts.alertRendered "PAT-2026-012" Samples.sevenCritical
  ∧ Alerts.badge (Alerts.step Samples.sevenCritical
                    (Alerts.Dismiss "PAT-2026-012")) = 6%nat.
Proof.
  assert (Alerts.alertRendered "PAT-2026-012" Samples.sevenCritical) as Hr
    by (vm_compute; right; by left).
  split; [done|].
  unfold Alerts.badge.
  rewrite (proj1 (dismiss_hides_only_that_patient _ _ Hr)).
  reflexivity.
Defined.

Lemma lowest_tier_only_by_category_witness :
  Alerts.isCritical Samples.redAtForty = true
  ∧ Cards.tier Samples.redAtForty = Cards.ALERT.
Proof.
  assert (Alerts.isCritical Samples.redAtForty = true) as Hc by reflexivity.
  split; [done|].
  apply (proj1 (lowest_tier_only_by_category _ Hc)). reflexivity.
Defined.

(** ** Dashboard cards *)

Section CardFacts.
Import Derived Cards.

Lemma sorted_take_drop (l : list Patient) n p q :
  StronglySorted riskGe l → p ∈ take n l → q ∈ drop n l → riskGe p q.
Proof.
  intros Hl. revert n. induction Hl as [|x l Hl IH Hx]; intros n.
  - rewrite take_nil. by intros ?%elem_of_nil.
  - destruct n as [|n]; [by intros ?%elem_of_nil|].
    cbn [take drop]. intros [->|Hp]%elem_of_cons Hq.
    + apply (proj1 (Forall_forall _ _) Hx). by eapply subseteq_drop.
    + by eapply IH.
Qed.

(** X13: the Top Critical card shows the first three and the Queue
    Overview card the first eight of the risk-sorted queue (fewer when the
    queue is shorter); no patient left off a card has a higher risk score
    than one shown on it, and the top three are the first three rows of the
    overview. *)
Theorem cards_hold_highest_risk (ps : list Patient) :
  length (top3 ps) = Nat.min 3 (length ps)
  ∧ length (queueSummary ps) = Nat.min 8 (length ps)
  ∧ (∀ p q, p ∈ top3 ps → q ∈ drop 3 (sortedByRisk ps) →
            risk_score q ≤ risk_score p)
  ∧ (∀ p q, p ∈ queueSummary ps → q ∈ drop 8 (sortedByRisk ps) →
            risk_score q ≤ risk_score p)
  ∧ top3 ps = take 3 (queueSummary ps).
Proof.
  unfold top3, queueSummary.
  assert (length (sortedByRisk ps) = length ps) as Hlen
    by apply Permutation_length, Array_sort_Permutation.
  split_and!.
  - by rewrite length_take, Hlen.
  - by rewrite length_take, Hlen.
  - intros p q Hp Hq. eapply (sorted_take_drop _ 3); [|done..].
    apply sortedByRisk_sorted.
  - intros p q Hp Hq. eapply (sorted_take_drop _ 8); [|done..].
    apply sortedByRisk_sorted.
  - rewrite take_take. done.
Qed.

Lemma sumRisk_bounds (pts : list Patient) (lo hi a : Z) :
  Forall (λ p, lo ≤ risk_score p ≤ hi) pts →
  a + Z.of_nat (length pts) * lo
  ≤ foldl (λ a b, a + risk_score b) a pts
  ≤ a + Z.of_nat (length pts) * hi.
Proof.
  intros Hall. revert a.
  induction Hall as [|p pts Hp _ IH]; intros a; simpl; [lia|].
  specialize (IH (a + risk_score p)). lia.
Qed.

(** X14: the average risk on the dashboard lies between the lowest and the
    highest risk score of the queue; with scores between 0 and 100 it is
    between 0 and 100. *)
Theorem avgRisk_within_bounds (pts : list Patient) (lo hi : Z) :
  pts ≠ [] →
  Forall (λ p, lo ≤ risk_score p ≤ hi) pts →
  lo ≤ avgRisk pts ≤ hi.
Proof.
  intros Hne Hall.
  pose proof (sumRisk_bounds pts lo hi 0 Hall) as Hsum.
  fold (sumRisk pts) in Hsum.
  destruct pts as [|p pts]; [done|].
  unfold avgRisk, roundDiv.
  set (n := Z.of_nat (length (p :: pts))) in *.
  assert (0 < n) as Hn by (unfold n; simpl; lia).
  split.
  - apply Z.div_le_lower_bound; lia.
  - apply Z.lt_succ_r, Z.div_lt_upper_bound; lia.
Qed.

Lemma lastFulfilled_acc (rs : list (Async.Outcome QueueData)) acc :
  foldl (λ acc r, match r with
                  | Async.Fulfilled d => Some d
                  | Async.Rejected _ => acc
                  end) acc rs
  = match lastFulfilled rs with
    | Some d => Some d
    | None => acc
    end.
Proof.
  unfold lastFulfilled. revert acc.
  induction rs as [|r rs IH] using rev_ind; intros acc; [done|].
  rewrite !foldl_app. simpl. destruct r; [done|]. apply IH.
Qed.

(** X15: after any run of queue polls, failed or not, the snapshot on the
    queue screen is the payload of the last poll that succeeded (the earlier
    one when none did), and the row selection, the expanded row and the open
    history modal are as the user left them. *)
Theorem polls_keep_selection_and_latest_snapshot
    (rs : list (Async.Outcome QueueData)) (s : QueuePage.State) :
  let s' := afterFetches rs s in
  QueuePage.queueData s'
  = match lastFulfilled rs with
    | Some d => Some d
    | None => QueuePage.queueData s
    end
  ∧ QueuePage.selected s' = QueuePage.selected s
  ∧ QueuePage.expandedRow s' = QueuePage.expandedRow s
  ∧ QueuePage.historyPatient s' = QueuePage.historyPatient s
  ∧ (rs ≠ [] → QueuePage.loading s' = false).
Proof.
  unfold afterFetches. revert s.
  induction rs as [|r rs IH] using rev_ind; intros s; [done|].
  rewrite foldl_app. cbn [foldl].
  destruct (IH s) as (Hq & Hsel & Hrow & Hhist & _).
  unfold lastFulfilled. rewrite foldl_app. cbn [foldl].
  fold (lastFulfilled rs).
  destruct r as [d|m]; split_and!; try done.
Qed.

End CardFacts.

Lemma avgRisk_within_bounds_witness :
  Fixtures.queueOfFour ≠ []
  ∧ Forall (λ p, 0 ≤ risk_score p ≤ 100) Fixtures.queueOfFour
  ∧ 0 ≤ Cards.avgRisk Fixtures.queueOfFour ≤ 100.
Proof.
  assert (Fixtures.queueOfFour ≠ []) as Hne by discriminate.
  assert (Forall (λ p, 0 ≤ risk_score p ≤ 100) Fixtures.queueOfFour) as Hall
    by (repeat constructor; by vm_compute).
  split; [done|]. split; [done|].
  exact (avgRisk_within_bounds _ 0 100 Hne Hall).
Defined.

(** 70, 85, 12 and 70 average to 59.25, shown as 59; 1 and 2 average to
    1.5, shown as 2. *)
Example avgRisk_samples :
  Cards.avgRisk Fixtures.queueOfFour = 59
  ∧ Cards.avgRisk [Fixtures.patient "A" "GREEN" 1;
                   Fixtures.patient "B" "GREEN" 2] = 2
  ∧ Cards.avgRisk [] = 0.
Proof. by split_and!. Qed.

(** ** Analytics screen *)

Section AnalyticsFacts.
Import AnalyticsPage.

(** X16: a failed refresh of the analytics summary discards the summary
    loaded before: every headline figure falls back to zero; the handler
    completes and the spinner is off.  A successful refresh shows the new
    summary. *)
Theorem failed_summary_blanks_figures
    (s : State) (d : Summary) (message : string) :
  let failed := afterLoad (Async.Rejected message) s in
  Async.completes (loadSummary (Async.Rejected message)) s
  ∧ summary failed = None
  ∧ total24h failed = 0
  ∧ critical24h failed = 0
  ∧ totalTriage24h failed = 0
  ∧ loading failed = false
  ∧ afterLoad (Async.Fulfilled d) s = {| summary := Some d; loading := false |}.
Proof. split_and!; try done. by exists tt. Qed.

End AnalyticsFacts.

(** ** Pollers under a backend that does not answer *)

Section MorePollerFacts.
Import Poller.

Lemma filter_none {A} (P : A → Prop) `{∀ x, Decision (P x)} (l : list A) :
  Forall (λ x, ¬ P x) l → filter P l = [].
Proof.
  induction 1 as [|x l Hx _ IH]; [done|].
  by rewrite filter_cons_False, IH.
Qed.

Lemma filter_all {A} (P : A → Prop) `{∀ x, Decision (P x)} (l : list A) :
  Forall P l → filter P l = l.
Proof.
  induction 1 as [|x l Hx _ IH]; [done|].
  by rewrite filter_cons_True, IH.
Qed.

Lemma afterTicks_none_settled interval latency (n m : nat) :
  0 ≤ interval →
  (∀ j, (j ≤ n)%nat →
        Z.of_nat n * interval < Z.of_nat j * interval + latency j) →
  (m ≤ n)%nat →
  inFlight (afterTicks interval latency m)
  = (λ j, {| fetch_no := j;
             settles_at := Z.of_nat j * interval + latency j |})
    <$> seq 0 (S m).
Proof.
  intros Hpos Hhung. induction m as [|m IH]; intros Hm.
  - simpl. by rewrite Z.add_0_l.
  - cbn [afterTicks]. unfold onInterval, startFetch, settleDue.
    cbn [inFlight started]. rewrite afterTicks_started, IH by lia.
    rewrite filter_all.
    + by rewrite (seq_S (S m)), fmap_app.
    + apply Forall_fmap, Forall_forall. intros j Hj%elem_of_seq. simpl.
      specialize (Hhung j ltac:(lia)). nia.
Qed.

(** X17: while no fetch settles, the requests of a poller pile up: if none
    of the fetches started so far has settled by the [n]-th tick, [n + 1]
    fetches are pending right after it, one per tick plus the one started
    at mount. *)
Theorem hung_backend_piles_up (interval : Z) (latency : nat → Z) (n : nat) :
  0 ≤ interval →
  (∀ j, (j ≤ n)%nat →
        Z.of_nat n * interval < Z.of_nat j * interval + latency j) →
  length (inFlight (afterTicks interval latency n)) = S n.
Proof.
  intros Hpos Hhung.
  rewrite (afterTicks_none_settled _ _ n n Hpos Hhung) by done.
  by rewrite length_fmap, length_seq.
Qed.

End MorePollerFacts.

Lemma hung_backend_piles_up_witness :
  0 ≤ Poller.DASHBOARD_INTERVAL
  ∧ (∀ j, (j ≤ 4)%nat →
          Z.of_nat 4 * Poller.DASHBOARD_INTERVAL
          < Z.of_nat j * Poller.DASHBOARD_INTERVAL
            + Fixtures.everyFetchTakes 120000 j)
  ∧ length (Poller.inFlight
              (Poller.afterTicks Poller.DASHBOARD_INTERVAL
                 (Fixtures.everyFetchTakes 120000) 4)) = 5%nat.
Proof.
  assert (0 ≤ Poller.DASHBOARD_INTERVAL) as Hpos by (by vm_compute).
  assert (∀ j, (j ≤ 4)%nat →
            Z.of_nat 4 * Poller.DASHBOARD_INTERVAL
            < Z.of_nat j * Poller.DASHBOARD_INTERVAL
              + Fixtures.everyFetchTakes 120000 j) as Hhung.
  { intros j Hj. unfold Poller.DASHBOARD_INTERVAL, Fixtures.everyFetchTakes.
    lia. }
  split_and!; [done|done|].
  exact (hung_backend_piles_up _ _ 4 Hpos Hhung).
Defined.

(** ** History screen *)

Section HistoryFacts.
Import Js HistoryPage.

Lemma startsWith_empty s : startsWith s EmptyString = true.
Proof. by destruct s. Qed.

Lemma startsWith_refl s : startsWith s s = true.
Proof.
  induction s as [|c s IH]; [done|]. simpl.
  by rewrite bool_decide_eq_true_2, IH.
Qed.

Lemma includes_empty s : includes s EmptyString = true.
Proof. destruct s; simpl; by rewrite ?startsWith_empty. Qed.

Lemma includes_refl s : includes s s = true.
Proof. destruct s as [|c s]; [done|]. cbn [includes]. by rewrite startsWith_refl. Qed.

(** X18: the patient search of the history screen lists every patient for
    an empty query, lists a patient whenever the query equals the patient's
    id up to letter case, and never reorders or adds patients. *)
Theorem search_finds_patients (allPatients : list Patient) (query : string) :
  filtered allPatients EmptyString = allPatients
  ∧ (∀ p, p ∈ allPatients →
          toLowerCase query = toLowerCase (patient_id p) →
          p ∈ filtered allPatients query)
  ∧ filtered allPatients query `sublist_of` allPatients.
Proof.
  unfold filtered. split_and!.
  - apply filter_all, Forall_forall. intros p _. apply includes_empty.
  - intros p Hp ->. apply list_elem_of_filter. split; [|done].
    apply includes_refl.
  - apply sublist_filter.
Qed.

Section ByDayFacts.
Variable formatDate : string → string.

Lemma dayEntry_snoc_same (l : list HistoryRecord) r :
  dayEntry formatDate (l ++ [r]) (dayOf formatDate r)
  = (dayOf formatDate r,
     filter (λ r0, dayOf formatDate r0 = dayOf formatDate r) l ++ [r]).
Proof.
  unfold dayEntry. rewrite filter_app, filter_cons_True by done.
  by rewrite filter_nil.
Qed.

Lemma dayEntry_snoc_other (l : list HistoryRecord) r k :
  k ≠ dayOf formatDate r →
  dayEntry formatDate (l ++ [r]) k = dayEntry formatDate l k.
Proof.
  intros Hk. unfold dayEntry. rewrite filter_app, filter_cons_False by done.
  by rewrite filter_nil, app_nil_r.
Qed.

Lemma pushDay_entries (l : list HistoryRecord) r (ks : list string) :
  NoDup ks →
  pushDay (dayOf formatDate r) r (dayEntry formatDate l <$> ks)
  = (dayEntry formatDate (l ++ [r]) <$> ks)
    ++ (if decide (dayOf formatDate r ∈ ks) then []
        else [(dayOf formatDate r, [r])]).
Proof.
  induction 1 as [|k ks Hk Hnd IH]; [done|].
  rewrite !fmap_cons.
  change (dayEntry formatDate l k)
    with (k, filter (λ r0, dayOf formatDate r0 = k) l).
  cbn [pushDay].
  destruct (decide (dayOf formatDate r = k)) as [<-|Hne].
  - rewrite decide_True by (by left).
    rewrite app_nil_r, dayEntry_snoc_same. f_equal.
    apply list_fmap_ext. intros i k' Hk'. symmetry.
    apply dayEntry_snoc_other.
    intros ->. apply Hk. by eapply list_elem_of_lookup_2.
  - rewrite IH, dayEntry_snoc_other by done. cbn [app]. f_equal.
    destruct (decide (dayOf formatDate r ∈ ks)) as [Hin|Hin].
    + by rewrite decide_True by (by right).
    + rewrite decide_False; [done|]. by intros [?|?]%elem_of_cons.
Qed.

(** The grouping, day by day. *)
Lemma recordsByDay_entries (l : list HistoryRecord) :
  recordsByDay formatDate l = dayEntry formatDate l <$> firstOccurrences (dayOf formatDate <$> l).
Proof.
  induction l as [|r l IH] using rev_ind; [done|].
  unfold recordsByDay, firstOccurrences in *.
  rewrite fmap_app, !foldl_app. cbn [foldl fmap list_fmap].
  fold (firstOccurrences (dayOf formatDate <$> l)) in *.
  rewrite IH, pushDay_entries by apply firstOccurrences_NoDup.
  unfold noteKey. destruct (decide (dayOf formatDate r ∈ firstOccurrences (dayOf formatDate <$> l)))
    as [Hin|Hin]; [by rewrite app_nil_r|].
  rewrite fmap_app. f_equal. cbn [fmap list_fmap]. unfold dayEntry.
  rewrite filter_app, filter_cons_True, filter_nil by done.
  rewrite filter_none; [done|].
  apply Forall_forall. intros r' Hr' E. apply Hin.
  apply elem_of_firstOccurrences. rewrite <- E. by apply list_elem_of_fmap_2.
Qed.

Lemma filter_length_by_key (ks : list string) (l : list HistoryRecord) :
  NoDup ks → (∀ r, r ∈ l → dayOf formatDate r ∈ ks) →
  sum_list ((λ k, length (filter (λ r, dayOf formatDate r = k) l)) <$> ks) = length l.
Proof.
  intros Hnd. revert ks Hnd.
  induction l as [|r l IH]; intros ks Hnd Hall.
  - induction ks as [|k ks IHk]; [done|].
    rewrite fmap_cons. simpl. apply IHk; [by apply NoDup_cons in Hnd as []|].
    by intros r ?%elem_of_nil.
  - assert (dayOf formatDate r ∈ ks) as Hr by (apply Hall; by left).
    assert (∀ r', r' ∈ l → dayOf formatDate r' ∈ ks) as Hall'
      by (intros r' Hr'; apply Hall; by right).
    specialize (IH ks Hnd Hall'). clear Hall'.
    cbn [length]. rewrite <- IH. clear IH Hall.
    induction Hnd as [|k ks Hk Hnd IHk]; [by apply elem_of_nil in Hr|].
    rewrite !fmap_cons. cbn [sum_list sum_list_with].
    rewrite filter_cons. apply elem_of_cons in Hr as [E|Hr].
    + rewrite decide_True by done. cbn [length].
      assert ((λ k0, length (filter (λ r0, dayOf formatDate r0 = k0) (r :: l)))
                <$> ks
              = (λ k0, length (filter (λ r0, dayOf formatDate r0 = k0) l))
                  <$> ks) as ->; [|done].
      apply list_fmap_ext. intros i k' Hk'.
      rewrite filter_cons_False; [done|].
      intros E'. apply Hk. rewrite <- E, E'. by eapply list_elem_of_lookup_2.
    + rewrite decide_False by (intros E; apply Hk; by rewrite <- E).
      rewrite (IHk Hr). lia.
Qed.

(** X19: the day-by-day grouping of a patient's records lists each day
    once, in the order the days first occur in the list; the group of a day
    holds exactly the records of that day, in their order in the list, and is
    never empty; the groups together hold as many records as the list. *)
Theorem recordsByDay_groups (records : list HistoryRecord) :
  (recordsByDay formatDate records).*1 = firstOccurrences (dayOf formatDate <$> records)
  ∧ NoDup (recordsByDay formatDate records).*1
  ∧ (∀ d group, (d, group) ∈ recordsByDay formatDate records →
                group = filter (λ r, dayOf formatDate r = d) records ∧ group ≠ [])
  ∧ sum_list (length <$> (recordsByDay formatDate records).*2) = length records.
Proof.
  rewrite recordsByDay_entries.
  assert ((dayEntry formatDate records <$> firstOccurrences (dayOf formatDate <$> records)).*1
          = firstOccurrences (dayOf formatDate <$> records)) as Hkeys.
  { rewrite <- list_fmap_compose. rewrite <- (list_fmap_id (firstOccurrences _)) at 2.
    by apply list_fmap_ext. }
  split_and!.
  - done.
  - rewrite Hkeys. apply firstOccurrences_NoDup.
  - intros d group [k [[= -> ->] Hk]]%list_elem_of_fmap. split; [done|].
    apply elem_of_firstOccurrences, list_elem_of_fmap in Hk as [r [-> Hr]].
    intros E. by apply (filter_nil_not_elem_of _ _ r E).
  - rewrite <- !list_fmap_compose.
    rewrite <- (filter_length_by_key (firstOccurrences (dayOf formatDate <$> records)) records).
    + reflexivity.
    + apply firstOccurrences_NoDup.
    + intros r Hr. apply elem_of_firstOccurrences. by apply list_elem_of_fmap_2.
Qed.

End ByDayFacts.

(** X20: the risk trend exists exactly when the patient has at least two
    records; it compares the two newest, its delta is the absolute difference
    of their risk scores, and its direction says which of the two is
    higher. *)
Theorem riskTrend_compares_two_newest (records : list HistoryRecord) :
  (getRiskTrend records = None ↔ (length records < 2)%nat)
  ∧ (∀ latest prev rest, records = latest :: prev :: rest →
       ∃ t, getRiskTrend records = Some t
            ∧ delta t = Z.abs (h_risk_score latest - h_risk_score prev)
            ∧ (dir t = up ↔ h_risk_score prev < h_risk_score latest)
            ∧ (dir t = down ↔ h_risk_score latest < h_risk_score prev)
            ∧ (dir t = same ↔ h_risk_score latest = h_risk_score prev)).
Proof.
  split.
  - destruct records as [|latest [|prev rest]]; simpl; [split; (done || lia)..|].
    destruct (_ <? _); [|destruct (_ <? _)]; split; (done || lia).
  - intros latest prev rest ->. simpl.
    destruct (Z.ltb_spec (h_risk_score prev) (h_risk_score latest));
      [|destruct (Z.ltb_spec (h_risk_score latest) (h_risk_score prev))];
      eexists; (split; [done|]); simpl; split_and!;
      try (split; (done || lia)); lia.
Qed.

(** X21: selecting a patient always ends with both spinners off and three
    requests issued in the order history, prediction, recommendations: a
    failed history call only leaves the history empty, it does not stop the
    other two; and the prediction card is always filled in afterwards, even
    when both of its calls failed. *)
Theorem history_failure_keeps_prediction
    (b : Backend) (patientId : string) (w : World) :
  let w' := afterLoad b patientId w in
  Async.completes (loadPatientHistory b patientId) w
  ∧ calls w' = calls w ++ [CallHistory patientId 50; CallNextMove patientId;
                           CallRecommendations patientId]
  ∧ selectedPatient (view w') = Some patientId
  ∧ patientHistory (view w')
    = match history b patientId 50 with
      | Async.Fulfilled h => Some h
      | Async.Rejected _ => None
      end
  ∧ nextDayPrediction (view w')
    = Some (match nextMove b patientId with
            | Async.Fulfilled n => Some n
            | Async.Rejected _ => None
            end,
            match recommendations b patientId with
            | Async.Fulfilled r => Some r
            | Async.Rejected _ => None
            end)
  ∧ historyLoading (view w') = false
  ∧ ndpLoading (view w') = false
  ∧ predictionCard (view w') = PredictionShown.
Proof.
  unfold afterLoad, Async.completes, loadPatientHistory, mbind, M_bind,
    Async.bind, Async.tryCatch. simpl.
  destruct (history b patientId 50), (nextMove b patientId),
    (recommendations b patientId); simpl; rewrite <- ?app_assoc;
    split_and!; try done; by exists tt.
Qed.

End HistoryFacts.

(** The five sample visits fall on two days, newest day first. *)
Example recordsByDay_fiveVisits :
  (λ e, (e.1, length e.2))
    <$> HistoryPage.recordsByDay Samples.isoDay Samples.fiveVisits
  = [("2026-01-02", 2%nat); ("2026-01-01", 3%nat)].
Proof. reflexivity. Qed.

(** A failed history call: the prediction is still fetched and shown. *)
Example loadPatientHistory_historyDown :
  let w := HistoryPage.afterLoad Samples.historyDown Fixtures.PAT
             {| HistoryPage.view := HistoryPage.mount;
                HistoryPage.calls := [] |} in
  HistoryPage.patientHistory (HistoryPage.view w) = None
  ∧ HistoryPage.nextDayPrediction (HistoryPage.view w)
    = Some (Some Fixtures.samplePrediction, None)
  ∧ length (HistoryPage.calls w) = 3%nat.
Proof. by split_and!. Qed.

(** ** History modal of the queue screen *)

Section ModalFacts.
Import PatientHistoryModal.

(** X22: a freshly opened history modal shows only the spinner; once the
    history call has settled the spinner is gone and exactly one of the error
    text, the "No records found" notice and the record list is drawn: the
    error text after a failure, the notice after an empty answer, the list
    otherwise. *)
Theorem modal_draws_one_section
    (response : Async.Outcome HistoryPage.History) :
  let s := settle response mount in
  (spinner mount = true ∧ errorText mount = false
   ∧ emptyNotice mount = false ∧ recordList mount = false)
  ∧ spinner s = false
  ∧ (errorText s = true ↔ ∃ message, response = Async.Rejected message)
  ∧ (emptyNotice s = true
     ↔ ∃ d, response = Async.Fulfilled d ∧ HistoryPage.records d = [])
  ∧ (recordList s = true
     ↔ ∃ d, response = Async.Fulfilled d ∧ HistoryPage.records d ≠ [])
  ∧ (errorText s, emptyNotice s, recordList s)
    ∈ [(true, false, false); (false, true, false); (false, false, true)].
Proof.
  intros s. unfold s. split; [done|].
  destruct response as [[[|r rs]]|message]; simpl.
  - split_and!; try done.
    + split; [done|]. by intros [? ?].
    + split; [|done]. intros _. by eexists.
    + split; [done|]. by intros (d & [= <-] & ?).
    + right. by left.
  - split_and!; try done.
    + split; [done|]. by intros [? ?].
    + split; [done|]. by intros (d & [= <-] & ?).
    + split; [|done]. intros _. by eexists.
    + right. right. by left.
  - split_and!; try done.
    + split; [|done]. intros _. by eexists.
    + split; [done|]. by intros (d & ? & ?).
    + split; [done|]. by intros (d & ? & ?).
    + by left.
Qed.

End ModalFacts.

(** ** Wait-time clock *)

Section ClockFacts.
Import Clock.

(** X23: for a timestamp that is not in the future, the clock splits the
    elapsed whole seconds into minutes and seconds below sixty; the wait time
    is green for the first five minutes, orange from 5:00 up to 10:59 and red
    from 11:00 on. *)
Theorem wait_time_clock (now lastUpdated : Z) :
  lastUpdated ≤ now →
  let e := timeSince now lastUpdated in
  0 ≤ total e
  ∧ 0 ≤ seconds e < 60
  ∧ minutes e * 60 + seconds e = total e
  ∧ (cellColor now lastUpdated = "#22c55e" ↔ total e < 300)
  ∧ (cellColor now lastUpdated = "#f97316" ↔ 300 ≤ total e < 660)
  ∧ (cellColor now lastUpdated = "#ef4444" ↔ 660 ≤ total e).
Proof.
  intros Hle e. unfold cellColor, timerColor, e, timeSince. simpl.
  set (diff := (now - lastUpdated) `div` 1000).
  assert (0 ≤ diff) as Hdiff by (apply Z.div_pos; lia).
  pose proof (Z.rem_bound_pos diff 60 Hdiff ltac:(lia)) as Hrem.
  pose proof (Z.quot_rem' diff 60) as Hqr.
  rewrite <- (Z.quot_div_nonneg diff 60) in * by lia.
  split_and!; try lia.
  - destruct (Z.ltb_spec (diff ÷ 60) 5); [split; [lia|done]|].
    destruct (Z.leb_spec (diff ÷ 60) 10); (split; [done|lia]).
  - destruct (Z.ltb_spec (diff ÷ 60) 5); [split; [done|lia]|].
    destruct (Z.leb_spec (diff ÷ 60) 10); [split; [lia|done]|].
    split; [done|lia].
  - destruct (Z.ltb_spec (diff ÷ 60) 5); [split; [done|lia]|].
    destruct (Z.leb_spec (diff ÷ 60) 10); [split; [done|lia]|].
    split; [lia|done].
Qed.

(** X24: for a timestamp ahead of the browser's clock the wait-time cell
    stays green and shows a negative seconds part; when the lag is not a
    whole number of minutes, minutes and seconds together are one minute
    off the elapsed time. *)
Theorem future_timestamp_clock (now lastUpdated : Z) :
  now < lastUpdated →
  let e := timeSince now lastUpdated in
  total e < 0
  ∧ -60 < seconds e ≤ 0
  ∧ cellColor now lastUpdated = "#22c55e"
  ∧ (seconds e ≠ 0 → minutes e * 60 + seconds e = total e - 60).
Proof.
  intros Hlt e. unfold cellColor, timerColor, e, timeSince. simpl.
  set (diff := (now - lastUpdated) `div` 1000).
  assert (diff < 0) as Hdiff by (apply Z.div_lt_upper_bound; lia).
  assert (- 60 < diff `rem` 60 ≤ 0) as Hrem
    by (clearbody diff; Z.to_euclidean_division_equations; lia).
  pose proof (Z.quot_rem' diff 60) as Hqr.
  pose proof (Z.div_mod diff 60 ltac:(lia)) as Hdm.
  pose proof (Z.mod_pos_bound diff 60 ltac:(lia)) as Hmod.
  assert (diff `div` 60 < 0) as Hmin by (apply Z.div_lt_upper_bound; lia).
  split_and!; [lia|lia|lia| |lia].
  by destruct (Z.ltb_spec (diff `div` 60) 5); [|lia].
Qed.

End ClockFacts.

Lemma wait_time_clock_witness :
  (1000000 : Z) ≤ 1659999
  ∧ Clock.cellColor 1659999 1000000 = "#f97316"
  ∧ Clock.minutes (Clock.timeSince 1659999 1000000) = 10.
Proof.
  assert ((1000000 : Z) ≤ 1659999) as Hle by (by vm_compute).
  split; [done|]. split; [|reflexivity].
  destruct (wait_time_clock _ _ Hle) as (_ & _ & _ & _ & Horange & _).
  apply Horange. by vm_compute.
Defined.

Lemma future_timestamp_clock_witness :
  (1000000 : Z) < 1090500
  ∧ Clock.minutes (Clock.timeSince 1000000 1090500) = -2
  ∧ Clock.seconds (Clock.timeSince 1000000 1090500) = -31
  ∧ Clock.total (Clock.timeSince 1000000 1090500) < 0.
Proof.
  assert ((1000000 : Z) < 1090500) as Hlt by reflexivity.
  split; [done|]. split; [reflexivity|]. split; [reflexivity|].
  exact (proj1 (future_timestamp_clock _ _ Hlt)).
Defined.

(** ** Navigation in [App] *)

Section NavigationFacts.
Import Navigation.

(** X25: moving between pages, through the sidebar or the "Re-triage
    ready" chip, never touches the retriage intent: the form comes back with
    the same patient and the same key, however many pages were visited. *)
Theorem navigation_keeps_intent (s : App.State) (es : list Event) :
  Forall isNavigation es →
  App.retriagePatient (run s es) = App.retriagePatient s
  ∧ formKey (run s es) = formKey s
  ∧ (chipShown (run s es) = true
     ↔ App.isRetriage s = true ∧ App.page (run s es) ≠ App.addPatient).
Proof.
  intros Hnav.
  assert (App.retriagePatient (run s es) = App.retriagePatient s) as Hkeep.
  { revert s. induction Hnav as [|e es He _ IH]; intros s; [done|].
    unfold run in *. cbn [foldl]. rewrite IH. by destruct e. }
  split_and!; [done|by unfold formKey; rewrite Hkeep|].
  unfold chipShown, App.isRetriage. rewrite Hkeep.
  destruct (App.retriagePatient s), (App.page (run s es)); simpl;
    split; try done; by intros [? ?].
Qed.

(** X26: an intent that was set can only be gone after the user pressed
    Cancel Re-triage: no other event, in any order, clears it. *)
Theorem intent_cleared_only_by_cancel (s : App.State) (es : list Event) :
  is_Some (App.retriagePatient s) →
  App.retriagePatient (run s es) = None →
  Cancel ∈ es.
Proof.
  revert s. induction es as [|e es IH]; intros s [p Hp] Hnone.
  - simpl in Hnone. congruence.
  - destruct e as [q| |pg|]; [|by left|..]; right;
      (eapply (IH (step s _)); [|exact Hnone]);
      simpl; rewrite ?Hp; by eexists.
Qed.

End NavigationFacts.

Lemma navigation_keeps_intent_witness :
  let es := [Navigation.Goto App.queue; Navigation.Goto App.history;
             Navigation.Chip] in
  Forall Navigation.isNavigation es
  ∧ App.retriagePatient (Navigation.run Fixtures.retriaging es)
    = Some Fixtures.P85.
Proof.
  intros es.
  assert (Forall Navigation.isNavigation es) as Hnav
    by (repeat constructor).
  split; [done|].
  exact (proj1 (navigation_keeps_intent Fixtures.retriaging es Hnav)).
Defined.

Lemma intent_cleared_only_by_cancel_witness :
  let es := [Navigation.Goto App.queue; Navigation.Cancel;
             Navigation.Goto App.addPatient] in
  is_Some (App.retriagePatient Fixtures.retriaging)
  ∧ App.retriagePatient (Navigation.run Fixtures.retriaging es) = None
  ∧ Navigation.Cancel ∈ es.
Proof.
  intros es.
  assert (is_Some (App.retriagePatient Fixtures.retriaging)) as Hset
    by (by eexists).
  assert (App.retriagePatient (Navigation.run Fixtures.retriaging es) = None)
    as Hnone by reflexivity.
  split; [done|]. split; [done|].
  exact (intent_cleared_only_by_cancel Fixtures.retriaging es Hset Hnone).
Defined.

(** ** Generated patient ids *)

Section PatientIdFacts.
Import PatientId.

(** The ninety values [Math.floor(Math.random() * 90)] can take. *)
Lemma elem_of_draws (k : N) : (k < 90)%N → k ∈ N.of_nat <$> seq 0 90.
Proof.
  intros Hk. apply list_elem_of_fmap. exists (N.to_nat k).
  split; [lia|]. apply elem_of_seq. lia.
Qed.

Lemma genPatientId_inj : Inj (=) (=) genPatientId.
Proof.
  intros k1 k2 E. unfold genPatientId in E. simpl in E.
  injection E as E.
  change (pretty (k1 + 10)%N = pretty (k2 + 10)%N) in E.
  apply (inj (pretty : N → string)) in E. lia.
Qed.

(** X27: a generated id is always twelve characters long, and only ninety
    different ids exist: among more than ninety generated ids two are
    equal. *)
Theorem generated_ids_collide (ks : list N) :
  Forall (λ k, (k < 90)%N) ks →
  Forall (λ id, String.length id = 12%nat) (genPatientId <$> ks)
  ∧ (NoDup (genPatientId <$> ks) → (length ks ≤ 90)%nat).
Proof.
  intros Hks. split.
  - apply Forall_fmap. eapply Forall_impl; [exact Hks|].
    intros k Hk%elem_of_draws. simpl.
    assert (forallb (λ k, String.length (genPatientId k) =? 12)%nat
              (N.of_nat <$> seq 0 90) = true) as Hall by (by vm_compute).
    apply forallb_Forall in Hall.
    by apply Nat.eqb_eq, (proj1 (Forall_forall _ _) Hall).
  - intros Hnd. apply (NoDup_fmap_1 genPatientId) in Hnd.
    assert (length (N.of_nat <$> seq 0 90) = 90%nat) as <-
      by (by rewrite length_fmap, length_seq).
    apply submseteq_length, NoDup_submseteq; [done|].
    intros k Hk. apply elem_of_draws.
    by apply (proj1 (Forall_forall _ _) Hks).
Qed.

End PatientIdFacts.

Lemma generated_ids_collide_witness :
  Forall (λ k, (k < 90)%N) [0; 42; 89]%N
  ∧ Forall (λ id, String.length id = 12%nat)
      (PatientId.genPatientId <$> [0; 42; 89]%N).
Proof.
  assert (Forall (λ k, (k < 90)%N) [0; 42; 89]%N) as Hks
    by (repeat constructor).
  split; [done|].
  exact (proj1 (generated_ids_collide _ Hks)).
Defined.

(** The lowest and the highest draw. *)
Example genPatientId_ends :
  PatientId.genPatientId 0 = "PAT-2026-010"
  ∧ PatientId.genPatientId 89 = "PAT-2026-099".
Proof. by split. Qed.

(** ** The screen during and after a submission *)

Section ResultFacts.
Import AddPatientForm ResultCells Validation.

Variable Number : string → Js.number.

(** X28: pressing submit on a valid form first wipes what the previous
    submission left: while the triage call is pending the screen shows the
    spinner and neither the old result, nor the old error, prediction or
    recommendations, whatever they were. *)
Theorem resubmission_clears_previous_result
    (b : Backend) (w : World) (payload : Payload) :
  payloadOf Number (form (view w)) = inr payload →
  ∃ pending later,
    frames (afterSubmit Number b w) = frames w ++ pending :: later
    ∧ form pending = form (view w)
    ∧ loading pending = true
    ∧ result pending = None
    ∧ error pending = None
    ∧ v_nextMove pending = None
    ∧ v_recommendations pending = []
    ∧ resultCard pending = None
    ∧ errorBanner pending = None.
Proof.
  intros Hp. unfold afterSubmit.
  destruct (triage b payload) as [data|message] eqn:Ht.
  - rewrite (submit_primary_ok _ _ _ _ _ Hp Ht). simpl.
    eexists _, _. split; [done|]. by split_and!.
  - rewrite (submit_primary_failed _ _ _ _ _ Hp Ht). simpl.
    eexists _, _. split; [done|]. by split_and!.
Qed.

Lemma replaceUnderscores_nonempty s :
  s ≠ EmptyString → replaceUnderscores s ≠ EmptyString.
Proof. by destruct s. Qed.

Lemma replaceUnderscores_clean s : hasChar "_" (replaceUnderscores s) = false.
Proof.
  induction s as [|c s IH]; [done|]. cbn [replaceUnderscores hasChar].
  rewrite IH, orb_false_r. apply bool_decide_eq_false.
  by case_decide; [|done].
Qed.

Lemma orElse_fallback_nonempty a b : b ≠ EmptyString → orElse a b ≠ EmptyString.
Proof. intros Hb. unfold orElse, Gateway.orElse. by case_decide. Qed.

(** X29: the "Predicted Move" and "Priority" cells are never empty: they
    show the prediction's value when the prediction carries one, else the
    primary result's, else "N/A"; the predicted move is shown with every
    underscore turned into a space. *)
Theorem merged_cells_precedence (n : option Prediction) (r : TriageResult) :
  predictedMoveCell n r ≠ EmptyString
  ∧ priorityCell n r ≠ EmptyString
  ∧ hasChar "_" (predictedMoveCell n r) = false
  ∧ (predictedBy n ≠ EmptyString →
     predictedMoveCell n r = replaceUnderscores (predictedBy n))
  ∧ (predictedBy n = EmptyString → r_predicted_next_move r ≠ EmptyString →
     predictedMoveCell n r = replaceUnderscores (r_predicted_next_move r))
  ∧ (predictedBy n = EmptyString → r_predicted_next_move r = EmptyString →
     predictedMoveCell n r = "N/A")
  ∧ (priorityBy n ≠ EmptyString → priorityCell n r = priorityBy n)
  ∧ (priorityBy n = EmptyString → r_priority r ≠ EmptyString →
     priorityCell n r = r_priority r)
  ∧ (priorityBy n = EmptyString → r_priority r = EmptyString →
     priorityCell n r = "N/A").
Proof.
  unfold predictedMoveCell, priorityCell. split_and!.
  - by apply replaceUnderscores_nonempty, orElse_fallback_nonempty.
  - by apply orElse_fallback_nonempty.
  - apply replaceUnderscores_clean.
  - intros Hn. unfold orElse.
    rewrite (orElse_nonempty (predictedBy n)) by done.
    by rewrite orElse_nonempty.
  - intros -> Hr. unfold orElse, Gateway.orElse. simpl.
    by rewrite !decide_False.
  - by intros -> ->.
  - intros Hn. unfold orElse.
    rewrite (orElse_nonempty (priorityBy n)) by done.
    by rewrite orElse_nonempty.
  - intros -> Hr. unfold orElse, Gateway.orElse. simpl.
    by rewrite !decide_False.
  - by intros -> ->.
Qed.

End ResultFacts.

Lemma resubmission_clears_previous_result_witness :
  let w := AddPatientForm.afterSubmit Fixtures.Number Fixtures.healthy
             (Fixtures.freshWorld App.mount) in
  AddPatientForm.payloadOf Fixtures.Number
    (AddPatientForm.form (AddPatientForm.view w)) = inr Fixtures.samplePayload
  ∧ AddPatientForm.result (AddPatientForm.view w) = Some Fixtures.sampleResult
  ∧ ∃ pending later,
      AddPatientForm.frames
        (AddPatientForm.afterSubmit Fixtures.Number Fixtures.primaryDown w)
      = AddPatientForm.frames w ++ pending :: later
      ∧ AddPatientForm.result pending = None.
Proof.
  intros w.
  assert (AddPatientForm.payloadOf Fixtures.Number
            (AddPatientForm.form (AddPatientForm.view w))
          = inr Fixtures.samplePayload) as Hp by reflexivity.
  split; [done|]. split; [reflexivity|].
  destruct (resubmission_clears_previous_result Fixtures.Number
              Fixtures.primaryDown w _ Hp)
    as (pending & later & E & _ & _ & Hres & _).
  by exists pending, later.
Defined.
